(** * websitetotext: the crawl client component (client/src/App.vue, client/src/main.ts)

    A shallow embedding of the component's script: URL normalisation, the
    page-count field, the rate limiter, the crawl request with its
    try/catch/finally, and the plain-text export, together with the
    JavaScript built-ins these functions call. *)

From Stdlib Require Import ZArith QArith List String Ascii Bool Lia DecimalString.
From Stdlib Require DecimalPos.
Import ListNotations.
Open Scope string_scope.
Open Scope Z_scope.
Set Warnings "-register-all".

(** ** JavaScript strings

    A string is its sequence of code units.  The model covers the code units
    0..255 (Basic Latin and Latin-1 Supplement); [trim] and [toLowerCase] are
    the built-ins restricted to that range. *)
Module JsString.

(** WhiteSpace and LineTerminator code units below 256:
    TAB, LF, VT, FF, CR, SP and NBSP. *)
Definition isWhiteSpace (c : ascii) : bool :=
  let n := N_of_ascii c in
  ((9 <=? n) && (n <=? 13) || (n =? 32) || (n =? 160))%N.

Fixpoint trimStart (s : string) : string :=
  match s with
  | String c r => if isWhiteSpace c then trimStart r else s
  | EmptyString => EmptyString
  end.

Fixpoint trimEnd (s : string) : string :=
  match s with
  | String c r =>
      match trimEnd r with
      | EmptyString => if isWhiteSpace c then EmptyString else String c EmptyString
      | r' => String c r'
      end
  | EmptyString => EmptyString
  end.

(** [String.prototype.trim] *)
Definition trim (s : string) : string := trimEnd (trimStart s).

(** Lower-case mapping of one code unit: A-Z, and the Latin-1 capitals
    U+00C0..U+00DE except the multiplication sign U+00D7. *)
Definition toLowerCaseUnit (c : ascii) : ascii :=
  let n := N_of_ascii c in
  if ((65 <=? n) && (n <=? 90)
      || (192 <=? n) && (n <=? 222) && negb (n =? 215))%N
  then ascii_of_N (n + 32) else c.

(** [String.prototype.toLowerCase] *)
Fixpoint toLowerCase (s : string) : string :=
  match s with
  | String c r => String (toLowerCaseUnit c) (toLowerCase r)
  | EmptyString => EmptyString
  end.

(** [String.prototype.startsWith] *)
Definition startsWith (s p : string) : bool := prefix p s.

(** The separator-joined concatenation behind [Array.prototype.join]. *)
Fixpoint concatWith (sep : string) (l : list string) : string :=
  match l with
  | [] => ""
  | [x] => x
  | x :: r => x ++ sep ++ concatWith sep r
  end.

Definition isEmpty (s : string) : bool :=
  match s with EmptyString => true | _ => false end.

End JsString.

(** ** JavaScript numbers

    The values the component computes with: NaN, the infinities, and finite
    numbers as rationals.  Integral values are kept exact. *)
Module JsNumber.

Inductive number : Type :=
| NaN
| NegInfinity
| PosInfinity
| Finite (q : Q).

Definition ofZ (z : Z) : number := Finite (inject_Z z).

Definition isNaN (n : number) : bool :=
  match n with NaN => true | _ => false end.

Definition integral (q : Q) : bool := (Qnum q mod Zpos (Qden q) =? 0).

(** [Number.isInteger] *)
Definition isInteger (n : number) : bool :=
  match n with Finite q => integral q | _ => false end.

(** [a > b]; false when either side is NaN. *)
Definition gt (a b : number) : bool :=
  match a, b with
  | NaN, _ | _, NaN => false
  | NegInfinity, _ => false
  | _, PosInfinity => false
  | PosInfinity, _ => true
  | Finite _, NegInfinity => true
  | Finite x, Finite y => negb (Qle_bool x y)
  end.

(** [a <= b]; false when either side is NaN. *)
Definition le (a b : number) : bool :=
  match a, b with
  | NaN, _ | _, NaN => false
  | NegInfinity, _ => true
  | _, PosInfinity => true
  | PosInfinity, _ => false
  | Finite _, NegInfinity => false
  | Finite x, Finite y => Qle_bool x y
  end.

(** [Math.min] of two arguments. *)
Definition min (a b : number) : number :=
  match a, b with
  | NaN, _ | _, NaN => NaN
  | NegInfinity, _ | _, NegInfinity => NegInfinity
  | PosInfinity, y => y
  | x, PosInfinity => x
  | Finite x, Finite y => if Qle_bool x y then a else b
  end.

(** [+0] and [-0] are the falsy finite numbers. *)
Definition isZero (n : number) : bool :=
  match n with Finite q => (Qnum q =? 0) | _ => false end.

Definition digitValue (c : ascii) : option Z :=
  let n := N_of_ascii c in
  if ((48 <=? n) && (n <=? 57))%N then Some (Z.of_N n - 48) else None.

(** The value of the longest prefix of decimal digits, read after [acc];
    [None] when no digit has been read. *)
Fixpoint parseDigits (acc : option Z) (s : string) : option Z :=
  match s with
  | String c r =>
      match digitValue c with
      | Some d =>
          parseDigits (Some (10 * match acc with Some a => a | None => 0 end + d)) r
      | None => acc
      end
  | EmptyString => acc
  end.

(** The Number value of a mathematical integer: exact up to 2^53, beyond
    that the nearest multiple of the power of two that leaves 53 significant
    bits (ties to the even one), and an infinity from 2^1024 on. *)
Definition ofInteger (z : Z) : number :=
  let a := Z.abs z in
  if a <=? 2 ^ 53 then ofZ z
  else
    let e := Z.log2 a - 52 in
    let q := a / 2 ^ e in
    let r := a mod 2 ^ e in
    let h := 2 ^ (e - 1) in
    let q' := if (h <? r) || ((r =? h) && Z.odd q) then q + 1 else q in
    let m := q' * 2 ^ e in
    if 2 ^ 1024 <=? m then (if z <? 0 then NegInfinity else PosInfinity)
    else ofZ (if z <? 0 then - m else m).

(** [parseInt(s, 10)]: leading white space is skipped, one sign is
    accepted, then the longest run of decimal digits is read; NaN when
    there is none.  The result is the Number value of the integer read. *)
Definition parseInt (s : string) : number :=
  let t := JsString.trimStart s in
  let '(negative, body) :=
    match t with
    | String "-" r => (true, r)
    | String "+" r => (false, r)
    | _ => (false, t)
    end in
  match parseDigits None body with
  | Some z => ofInteger (if negative then - z else z)
  | None => NaN
  end.

Definition decimal (z : Z) : string := NilZero.string_of_int (Z.to_int z).

(** [Number.prototype.toString]: the decimal digits of an integral value
    of magnitude up to 2^53; [other] renders the remaining finite values
    (fractions, shortest round-trip digits, exponent notation). *)
Definition toString (other : Q -> string) (n : number) : string :=
  match n with
  | NaN => "NaN"
  | NegInfinity => "-Infinity"
  | PosInfinity => "Infinity"
  | Finite q =>
      let z := Qnum q / Zpos (Qden q) in
      if integral q && (Z.abs z <=? 2 ^ 53) then decimal z else other q
  end.

End JsNumber.

(** ** Values received from the crawl API

    [response.data] is whatever JSON the server sent (or the body as a
    string); the declared [CrawlResult] shape is not checked at run time. *)
Module Json.
Import JsNumber.

(** An object is the list of its own properties, in creation order, with
    distinct keys. *)
Inductive json : Type :=
| JNull
| JBool (b : bool)
| JNum (n : number)
| JStr (s : string)
| JArr (items : list json)
| JObj (fields : list (string * json)).

(** A JavaScript value is a JSON value or [undefined] ([None]). *)
Definition value : Type := option json.

Inductive exn : Type :=
| TypeError
| RequestFailed
| ExternalError.

(** The completion of an evaluation: a value, or a thrown exception. *)
Inductive completion (A : Type) : Type :=
| Normal (a : A)
| Throw (e : exn).
Arguments Normal {A} a.
Arguments Throw {A} e.

Definition bindC {A B} (c : completion A) (k : A -> completion B) : completion B :=
  match c with
  | Normal a => k a
  | Throw e => Throw e
  end.

(** ToBoolean *)
Definition truthy (v : value) : bool :=
  match v with
  | None | Some JNull => false
  | Some (JBool b) => b
  | Some (JNum n) => negb (isZero n || isNaN n)
  | Some (JStr s) => negb (JsString.isEmpty s)
  | Some (JArr _) | Some (JObj _) => true
  end.

(** [typeof v] *)
Definition typeof (v : value) : string :=
  match v with
  | None => "undefined"
  | Some JNull => "object"
  | Some (JBool _) => "boolean"
  | Some (JNum _) => "number"
  | Some (JStr _) => "string"
  | Some (JArr _) | Some (JObj _) => "object"
  end.

(** [Array.isArray(v)] *)
Definition isArray (v : value) : bool :=
  match v with Some (JArr _) => true | _ => false end.

Definition elements (v : value) : list json :=
  match v with Some (JArr items) => items | _ => [] end.

(** The property names the component reads.  None of them is an own
    property of an array or of a primitive wrapper, and none is inherited
    from a built-in prototype. *)
Inductive propName : Type := pages | content | h1 | h2 | h3 | h4 | text.

Definition nameOf (p : propName) : string :=
  match p with
  | pages => "pages" | content => "content"
  | h1 => "h1" | h2 => "h2" | h3 => "h3" | h4 => "h4"
  | text => "text"
  end.

Fixpoint lookup (k : string) (fields : list (string * json)) : value :=
  match fields with
  | (k', v) :: r => if String.eqb k k' then Some v else lookup k r
  | [] => None
  end.

(** The property read [v.p] (or [v[p]]): a TypeError on [undefined] and
    [null], the own property of an object, [undefined] elsewhere. *)
Definition getProp (v : value) (p : propName) : completion value :=
  match v with
  | None | Some JNull => Throw TypeError
  | Some (JObj fields) => Normal (lookup (nameOf p) fields)
  | Some _ => Normal None
  end.

(** ToString, with [num] rendering numbers.  Inside [join], and so inside
    the string of a nested array, [null] is the empty string. *)
Fixpoint toStringWith (num : number -> string) (v : json) : string :=
  match v with
  | JNull => "null"
  | JBool true => "true"
  | JBool false => "false"
  | JNum n => num n
  | JStr s => s
  | JArr items =>
      JsString.concatWith ","
        (map (fun x => match x with JNull => "" | _ => toStringWith num x end) items)
  | JObj _ => "[object Object]"
  end.

Definition joinElement (num : number -> string) (x : json) : string :=
  match x with JNull => "" | _ => toStringWith num x end.

(** [Array.prototype.join] *)
Definition join (num : number -> string) (sep : string) (items : list json) : string :=
  JsString.concatWith sep (map (joinElement num) items).

(** [Array.prototype.flatMap] with a callback that may throw: the first
    exception ends the iteration. *)
Fixpoint flatMap {A B} (f : A -> completion (list B)) (l : list A)
  : completion (list B) :=
  match l with
  | [] => Normal []
  | x :: r =>
      bindC (f x) (fun ys => bindC (flatMap f r) (fun zs => Normal (ys ++ zs)%list))
  end.

End Json.

(** ** axios: the address a request goes to *)
Module Axios.

Definition isAlpha (c : ascii) : bool :=
  let n := N_of_ascii c in
  ((65 <=? n) && (n <=? 90) || (97 <=? n) && (n <=? 122))%N.

Definition isSchemeChar (c : ascii) : bool :=
  let n := N_of_ascii c in
  (isAlpha c || (48 <=? n) && (n <=? 57)
   || (n =? 43) || (n =? 45) || (n =? 46))%N.

(** After the first letter of a scheme: more scheme characters, a colon,
    and two slashes. *)
Fixpoint schemeRest (s : string) : bool :=
  match s with
  | String c r =>
      if Ascii.eqb c ":" then prefix "//" r
      else isSchemeChar c && schemeRest r
  | EmptyString => false
  end.

(** [isAbsoluteURL]: the test [/^([a-z][a-z\d+\-.]*:)?\/\//i]. *)
Definition isAbsoluteURL (u : string) : bool :=
  prefix "//" u
  || match u with
     | String c r => isAlpha c && schemeRest r
     | EmptyString => false
     end.

Fixpoint dropLeadingSlashes (s : string) : string :=
  match s with
  | String "/" r => dropLeadingSlashes r
  | _ => s
  end.

(** Removes what [/\/?\/$/] matches: one trailing slash, or two. *)
Fixpoint dropTrailingSlashes (s : string) : string :=
  match s with
  | "/" | "//" => ""
  | String c r => String c (dropTrailingSlashes r)
  | EmptyString => EmptyString
  end.

(** [combineURLs] *)
Definition combineURLs (baseURL relativeURL : string) : string :=
  if JsString.isEmpty relativeURL then baseURL
  else dropTrailingSlashes baseURL ++ "/" ++ dropLeadingSlashes relativeURL.

(** [buildFullPath]: the base address is put in front of a relative one. *)
Definition buildFullPath (baseURL requestedURL : string) : string :=
  if negb (JsString.isEmpty baseURL) && negb (isAbsoluteURL requestedURL)
  then combineURLs baseURL requestedURL
  else requestedURL.

End Axios.

(** ** The component *)
Module App.
Import JsNumber Json.

(** What the component takes from its surroundings: the URL parser behind
    [new URL], the number rendering outside the plain decimal integers,
    [JSON.stringify(v, null, 2)], the DOMPurify sanitizer (opaque, so it may
    throw), the build-time variable [import.meta.env.VITE_API_URL], and the
    [content] attribute of the page's [csrf-token] meta tag. *)
Class Platform : Type := {
  urlParses : string -> bool;
  numberToStringOther : Q -> string;
  JSON_stringify : json -> string;
  DOMPurify_sanitize : string -> completion string;
  VITE_API_URL : option string;
  csrfMetaContent : option string
}.

Record request : Type := {
  endpoint : string;
  body_url : string;
  body_max_pages : number;
  csrfHeader : string
}.

Inductive effect : Type :=
| ConsoleLog
| ConsoleError
| Alert (message : string)
| AxiosPost (r : request)
| NewBlob (data type : string)
| CreateObjectURL
| Download (fileName : string)
| RevokeObjectURL.

(** The refs of the component. [editorView] is the editor's document, once
    the editor is mounted. *)
Record State : Type := {
  url : string;
  maxPages : number;
  displayMaxPages : string;
  result : json;
  loading : bool;
  editorView : option string;
  lastCrawlTime : Z
}.

(** The editor keeps its document as lines: text handed to it is split at
    CR LF, CR and LF, and read back with LF between the lines. *)
Fixpoint editorText (s : string) : string :=
  match s with
  | String c r =>
      if Ascii.eqb c "013"%char then
        String "010"%char
          match r with
          | String c' r' => if Ascii.eqb c' "010"%char then editorText r' else editorText r
          | EmptyString => EmptyString
          end
      else String c (editorText r)
  | EmptyString => EmptyString
  end.


Definition MAX_CRAWL_PAGES : number := ofZ 100.
Definition CRAWL_COOLDOWN : Z := 5000.

Definition set_url (v : string) (s : State) : State :=
  {| url := v; maxPages := maxPages s; displayMaxPages := displayMaxPages s;
     result := result s; loading := loading s; editorView := editorView s;
     lastCrawlTime := lastCrawlTime s |}.

Definition set_maxPages (v : number) (s : State) : State :=
  {| url := url s; maxPages := v; displayMaxPages := displayMaxPages s;
     result := result s; loading := loading s; editorView := editorView s;
     lastCrawlTime := lastCrawlTime s |}.

Definition set_displayMaxPages (v : string) (s : State) : State :=
  {| url := url s; maxPages := maxPages s; displayMaxPages := v;
     result := result s; loading := loading s; editorView := editorView s;
     lastCrawlTime := lastCrawlTime s |}.

Definition set_result (v : json) (s : State) : State :=
  {| url := url s; maxPages := maxPages s; displayMaxPages := displayMaxPages s;
     result := v; loading := loading s; editorView := editorView s;
     lastCrawlTime := lastCrawlTime s |}.

Definition set_loading (v : bool) (s : State) : State :=
  {| url := url s; maxPages := maxPages s; displayMaxPages := displayMaxPages s;
     result := result s; loading := v; editorView := editorView s;
     lastCrawlTime := lastCrawlTime s |}.

Definition set_editorView (v : option string) (s : State) : State :=
  {| url := url s; maxPages := maxPages s; displayMaxPages := displayMaxPages s;
     result := result s; loading := loading s; editorView := v;
     lastCrawlTime := lastCrawlTime s |}.

Definition set_lastCrawlTime (v : Z) (s : State) : State :=
  {| url := url s; maxPages := maxPages s; displayMaxPages := displayMaxPages s;
     result := result s; loading := loading s; editorView := editorView s;
     lastCrawlTime := v |}.

(** *** Handlers: state, an effect log, and exceptions *)

Definition M (A : Type) : Type := State -> State * list effect * completion A.

Definition ret {A} (a : A) : M A := fun s => (s, [], Normal a).

Definition bind {A B} (c : M A) (k : A -> M B) : M B :=
  fun s =>
    let '(s1, e1, r1) := c s in
    match r1 with
    | Normal a => let '(s2, e2, r2) := k a s1 in (s2, (e1 ++ e2)%list, r2)
    | Throw e => (s1, e1, Throw e)
    end.

Definition get : M State := fun s => (s, [], Normal s).
Definition modify (f : State -> State) : M unit := fun s => (f s, [], Normal tt).
Definition emit (e : effect) : M unit := fun s => (s, [e], Normal tt).
Definition lift {A} (c : completion A) : M A := fun s => (s, [], c).

(** [try { body } catch (e) { handler } finally { cleanup }] *)
Definition tryCatchFinally (body : M unit) (handler : exn -> M unit)
    (cleanup : M unit) : M unit :=
  fun s =>
    let '(s1, e1, r1) := body s in
    let '(s2, e2, r2) :=
      match r1 with
      | Normal _ => (s1, [], Normal tt)
      | Throw e => handler e s1
      end in
    let '(s3, e3, r3) := cleanup s2 in
    (s3, (e1 ++ e2 ++ e3)%list,
     match r3 with Normal _ => r2 | Throw e => Throw e end).

Declare Scope handler_scope.
Delimit Scope handler_scope with handler.
Notation "x <- c ;; k" := (bind c (fun x => k))
  (at level 61, c at next level, right associativity) : handler_scope.
Notation "c ;; k" := (bind c (fun _ => k))
  (at level 61, right associativity) : handler_scope.
Open Scope handler_scope.

Section Component.
Context {P : Platform}.

Definition numberToString : number -> string := toString numberToStringOther.

(** A value inside a template literal. *)
Definition interpolate (v : option string) : string :=
  match v with Some s => s | None => "undefined" end.

(** *** Input Validator *)

Definition normalizedUrl (s : State) : string :=
  let normalizedUrl := JsString.toLowerCase (JsString.trim (url s)) in
  if negb (JsString.startsWith normalizedUrl "http://")
     && negb (JsString.startsWith normalizedUrl "https://")
  then "https://" ++ normalizedUrl
  else normalizedUrl.

Definition isValidUrl (s : State) : bool := urlParses (normalizedUrl s).

Definition isValidMaxPages (s : State) : bool :=
  isInteger (maxPages s) && gt (maxPages s) (ofZ 0).

Definition canCrawl (s : State) : bool := isValidUrl s && isValidMaxPages s.

Definition updateMaxPages (s : State) : State :=
  let parsed := parseInt (displayMaxPages s) in
  let s1 :=
    if negb (isNaN parsed) then set_maxPages (min parsed MAX_CRAWL_PAGES) s
    else s in
  set_displayMaxPages (numberToString (maxPages s1)) s1.

(** *** Rate Limiter and Crawl Client *)

(** [Math.ceil(x / 1000)] for an integer [x]. *)
Definition ceilSeconds (x : Z) : Z := - ((- x) / 1000).

Definition waitMessage (seconds : Z) : string :=
  "Please wait " ++ decimal seconds ++ " seconds before crawling again.".

Definition invalidInputMessage : string :=
  "Please enter a valid URL and number of pages (1-"
    ++ numberToString MAX_CRAWL_PAGES ++ ").".

Definition crawlRequest (s : State) : request :=
  {| endpoint := interpolate VITE_API_URL ++ "/crawl";
     body_url := normalizedUrl s;
     body_max_pages := maxPages s;
     csrfHeader := match csrfMetaContent with Some c => c | None => "" end |}.

(** [crawlWebsite] up to its [await]: [Some r] when the request [r] has been
    posted and the function is suspended inside its [try] block, [None]
    when it has returned.  [now] is the reading of [Date.now()]. *)
Definition crawlWebsite (now : Z) : M (option request) :=
  s <- get ;;
  if now - lastCrawlTime s <? CRAWL_COOLDOWN then
    emit (Alert (waitMessage
                   (ceilSeconds (CRAWL_COOLDOWN - (now - lastCrawlTime s))))) ;;
    ret None
  else
    modify (set_lastCrawlTime now) ;;
    s <- get ;;
    if negb (canCrawl s) then
      emit (Alert invalidInputMessage) ;;
      ret None
    else
      modify (set_loading true) ;;
      emit ConsoleLog ;;
      s <- get ;;
      emit (AxiosPost (crawlRequest s)) ;;
      ret (Some (crawlRequest s)).

(** How the posted request settles: a response with its decoded body, or
    a rejection (transport failure, status outside 2xx). *)
Inductive settlement : Type :=
| Fulfilled (data : json)
| Rejected.

Definition await (o : settlement) : M json :=
  match o with
  | Fulfilled data => ret data
  | Rejected => lift (Throw RequestFailed)
  end.

Definition crawlFailedAlert : effect :=
  Alert "An error occurred while crawling the website. Please try again later.".

Definition sanitizeContent (content : string) : M string :=
  lift (DOMPurify_sanitize content).

(** [crawlWebsite] from its [await] on. *)
Definition crawlWebsite_resumed (o : settlement) : M unit :=
  tryCatchFinally
    (data <- await o ;;
     modify (set_result data) ;;
     s <- get ;;
     match editorView s with
     | Some _ =>
         let jsonString := JSON_stringify (result s) in
         doc <- sanitizeContent jsonString ;;
         modify (set_editorView (Some (editorText doc)))
     | None => ret tt
     end)
    (fun _ =>
       emit ConsoleError ;;
       emit crawlFailedAlert)
    (modify (set_loading false)).

(** [key] is [event.key]. *)
Definition handleKeyPress (key : string) (now : Z) : M (option request) :=
  if (key =? "Enter")%string then crawlWebsite now else ret None.

(** *** Result Exporter *)

Definition downloadJSON : M unit :=
  s <- get ;;
  match editorView s with
  | None => ret tt
  | Some jsonString =>
      emit (NewBlob jsonString "application/json") ;;
      emit CreateObjectURL ;;
      emit (Download "crawl_result.json") ;;
      emit RevokeObjectURL
  end.

Definition arrayOrEmpty (v : value) : list json :=
  if isArray v then elements v else [].

(** The callback given to [pages.flatMap]. *)
Definition pageContribution (page : json) : completion (list json) :=
  if negb (truthy (Some page)) then Normal []
  else
    bindC (getProp (Some page) content) (fun c =>
    if negb (typeof c =? "object")%string then Normal []
    else
      bindC (flatMap
               (fun h => bindC (getProp c h) (fun v => Normal (arrayOrEmpty v)))
               [h1; h2; h3; h4]) (fun headers =>
      bindC (getProp c text) (fun t =>
      Normal (headers ++ arrayOrEmpty t)%list))).

Definition newline : string := String (ascii_of_nat 10) EmptyString.

Definition formatAlert : string :=
  "The data structure is not in the expected format.".

Definition rejectStructure : M unit :=
  emit ConsoleError ;;
  emit (Alert formatAlert).

Definition convertToTxt : M unit :=
  s <- get ;;
  emit ConsoleLog ;;
  if negb (truthy (Some (result s))) then rejectStructure
  else
    pagesValue <- lift (getProp (Some (result s)) pages) ;;
    if negb (isArray pagesValue) then rejectStructure
    else
      content <- lift (flatMap pageContribution (elements pagesValue)) ;;
      emit ConsoleLog ;;
      let txtContent := join numberToString (newline ++ newline) content in
      emit ConsoleLog ;;
      emit (NewBlob txtContent "text/plain;charset=utf-8") ;;
      emit CreateObjectURL ;;
      emit (Download "crawl_result.txt") ;;
      emit RevokeObjectURL.

(** *** Bootstrap (main.ts) *)

Definition defaultApiUrl : string := "https://api.websitetotext.com".

Definition apiUrl : string :=
  match VITE_API_URL with
  | Some v => if JsString.isEmpty v then defaultApiUrl else v
  | None => defaultApiUrl
  end.

(** The address axios sends a request to, with [axios.defaults.baseURL]
    set to [apiUrl]. *)
Definition requestAddress (r : request) : string :=
  Axios.buildFullPath apiUrl (endpoint r).

End Component.

(** *** The session: the component's state and the requests awaiting a
    response, driven by the listeners of the template *)

Record Session : Type := {
  state : State;
  inFlight : nat
}.

Inductive event : Type :=
| InputUrl (v : string)
| InputMaxPages (v : string)
| KeyupEnter (now : Z)
| ClickCrawl (now : Z)
| ClickDownloadJSON
| ClickDownloadTXT
| Settle (o : settlement).

Definition setup : State :=
  {| url := ""; maxPages := ofZ 10; displayMaxPages := "10";
     result := JNull; loading := false; editorView := None;
     lastCrawlTime := 0 |}.

(** [onMounted]: the editor is created with an empty document. *)
Definition onMounted (s : State) : State := set_editorView (Some "") s.

Definition initial : Session := {| state := onMounted setup; inFlight := 0 |}.

Section Listeners.
Context {P : Platform}.

(** [:disabled="loading || !canCrawl"] *)
Definition crawlDisabled (s : State) : bool := loading s || negb (canCrawl s).

(** [:disabled="!result"] *)
Definition downloadDisabled (s : State) : bool := negb (truthy (Some (result s))).

Definition posted (r : completion (option request)) : nat :=
  match r with Normal (Some _) => 1%nat | _ => 0%nat end.

Definition started (x : Session) (out : State * list effect * completion (option request))
  : Session * list effect :=
  let '(s, e, r) := out in
  ({| state := s; inFlight := inFlight x + posted r |}, e).

Definition handled (x : Session) (out : State * list effect * completion unit)
  : Session * list effect :=
  let '(s, e, _) := out in
  ({| state := s; inFlight := inFlight x |}, e).

(** One event of the template; [None] when the control is disabled or
    nothing is awaiting a response.  On the page-count field the
    [v-model] listener stores the field's value ([v] is its string, as
    [parseInt] reads it), then [updateMaxPages] runs.  [@keyup.enter] lets
    only the Enter key through to [handleKeyPress]. *)
Definition fire (ev : event) (x : Session) : option (Session * list effect) :=
  match ev with
  | InputUrl v =>
      Some ({| state := set_url v (state x); inFlight := inFlight x |}, [])
  | InputMaxPages v =>
      Some ({| state := updateMaxPages (set_displayMaxPages v (state x));
               inFlight := inFlight x |}, [])
  | KeyupEnter now => Some (started x (handleKeyPress "Enter" now (state x)))
  | ClickCrawl now =>
      if crawlDisabled (state x) then None
      else Some (started x (crawlWebsite now (state x)))
  | ClickDownloadJSON =>
      if downloadDisabled (state x) then None
      else Some (handled x (downloadJSON (state x)))
  | ClickDownloadTXT =>
      if downloadDisabled (state x) then None
      else Some (handled x (convertToTxt (state x)))
  | Settle o =>
      match inFlight x with
      | O => None
      | S n =>
          let '(s, e, _) := crawlWebsite_resumed o (state x) in
          Some ({| state := s; inFlight := n |}, e)
      end
  end.

Fixpoint run (evs : list event) (x : Session) : option Session :=
  match evs with
  | [] => Some x
  | ev :: r =>
      match fire ev x with
      | Some (x', _) => run r x'
      | None => None
      end
  end.

Inductive reachable : Session -> Prop :=
| reachable_initial : reachable initial
| reachable_fire x ev x' e :
    reachable x -> fire ev x = Some (x', e) -> reachable x'.

End Listeners.

(** *** The text export as the specification words it *)

Definition isObject (v : json) : bool :=
  match v with JObj _ => true | _ => false end.

Definition field (name : string) (v : json) : value :=
  match v with JObj fields => lookup name fields | _ => None end.

(** The array under [name], empty when missing or not an array. *)
Definition arrayField (name : string) (c : json) : list json :=
  match field name c with Some (JArr items) => items | _ => [] end.

(** What one page contributes: nothing unless its [content] is an object,
    else h1, h2, h3, h4 and then text. *)
Definition flattenedPage (page : json) : list json :=
  match field "content" page with
  | Some c =>
      if isObject c then
        (arrayField "h1" c ++ arrayField "h2" c ++ arrayField "h3" c
           ++ arrayField "h4" c ++ arrayField "text" c)%list
      else []
  | None => []
  end.

Definition flattened (pageList : list json) : list json :=
  flat_map flattenedPage pageList.

Definition nullContent (page : json) : bool :=
  match field "content" page with Some JNull => true | _ => false end.

Definition downloadTrace (txt : string) : list effect :=
  [ConsoleLog; ConsoleLog; ConsoleLog;
   NewBlob txt "text/plain;charset=utf-8";
   CreateObjectURL; Download "crawl_result.txt"; RevokeObjectURL].

Definition rejectionTrace : list effect :=
  [ConsoleLog; ConsoleError; Alert formatAlert].

Definition isNewBlob (e : effect) : bool :=
  match e with NewBlob _ _ => true | _ => false end.

Definition isDownload (e : effect) : bool :=
  match e with Download _ => true | _ => false end.

Definition isAxiosPost (e : effect) : bool :=
  match e with AxiosPost _ => true | _ => false end.

Definition isAlert (e : effect) : bool :=
  match e with Alert _ => true | _ => false end.

(** *** Vocabulary for traces and runs *)

Definition jsonDownloadTrace (doc : string) : list effect :=
  [NewBlob doc "application/json"; CreateObjectURL;
   Download "crawl_result.json"; RevokeObjectURL].

Definition isCreateObjectURL (e : effect) : bool :=
  match e with CreateObjectURL => true | _ => false end.

Definition isRevokeObjectURL (e : effect) : bool :=
  match e with RevokeObjectURL => true | _ => false end.

Definition count (f : effect -> bool) (l : list effect) : nat :=
  List.length (filter f l).

(** An export's effects hold no request, revoke every object URL they
    create, and download every blob they make. *)
Definition cleanExport (l : list effect) : bool :=
  negb (existsb isAxiosPost l)
  && Nat.eqb (count isCreateObjectURL l) (count isRevokeObjectURL l)
  && Nat.eqb (count isNewBlob l) (count isDownload l).

(** The reading of [Date.now()] an event hands to [crawlWebsite]. *)
Definition eventTime (ev : event) : option Z :=
  match ev with
  | KeyupEnter now | ClickCrawl now => Some now
  | _ => None
  end.

Definition isKeyupEnter (ev : event) : bool :=
  match ev with KeyupEnter _ => true | _ => false end.

(** A page the guard of the export callback turns away: the [typeof] of its
    [content] is not ["object"]. *)
Definition skippedPage (page : json) : bool :=
  negb (typeof (field "content" page) =? "object")%string.

(** A string that does not start with white space. *)
Definition headKept (s : string) : bool :=
  match s with
  | String c _ => negb (JsString.isWhiteSpace c)
  | EmptyString => true
  end.

(** The number a run of decimal digits denotes, read after [acc]. *)
Fixpoint uintValue (acc : Z) (d : Decimal.uint) : Z :=
  match d with
  | Decimal.Nil => acc
  | Decimal.D0 r => uintValue (10 * acc + 0) r
  | Decimal.D1 r => uintValue (10 * acc + 1) r
  | Decimal.D2 r => uintValue (10 * acc + 2) r
  | Decimal.D3 r => uintValue (10 * acc + 3) r
  | Decimal.D4 r => uintValue (10 * acc + 4) r
  | Decimal.D5 r => uintValue (10 * acc + 5) r
  | Decimal.D6 r => uintValue (10 * acc + 6) r
  | Decimal.D7 r => uintValue (10 * acc + 7) r
  | Decimal.D8 r => uintValue (10 * acc + 8) r
  | Decimal.D9 r => uintValue (10 * acc + 9) r
  end.

(** A platform with the API address configured at build time. *)
Definition configuredPlatform : Platform :=
  {| urlParses := fun u => negb (String.eqb u "https://");
     numberToStringOther := fun _ => "";
     JSON_stringify := fun _ => "{}";
     DOMPurify_sanitize := fun t => Normal t;
     VITE_API_URL := Some "https://crawl.example.org/api";
     csrfMetaContent := Some "token" |}.


(** *** Sample data *)

(** A platform for the worked examples: no build-time variable, no
    csrf-token tag, a parser that accepts every address with something
    after [https://]. *)
Definition samplePlatform : Platform :=
  {| urlParses := fun u => negb (String.eqb u "https://");
     numberToStringOther := fun _ => "";
     JSON_stringify := fun _ => "{}";
     DOMPurify_sanitize := fun t => Normal t;
     VITE_API_URL := None;
     csrfMetaContent := None |}.

(** [{pages: [{content: {h1: ["A"], text: ["b", "c"]}}, {content: {}}]}] *)
Definition sampleResult : json :=
  JObj [("pages",
         JArr [JObj [("content",
                      JObj [("h1", JArr [JStr "A"]);
                            ("text", JArr [JStr "b"; JStr "c"])])];
               JObj [("content", JObj [])]])].

(** The session after [example.com] is typed and the crawl button is
    clicked at time 10000: one request awaits its response. *)
Definition sampleLoading : Session :=
  {| state := set_loading true
                (set_lastCrawlTime 10000 (set_url "example.com" (state initial)));
     inFlight := 1 |}.

(** [{pages: [{content: {h1: ["A"]}}, {content: null}]}] *)
Definition mixedNullResult : json :=
  JObj [("pages",
         JArr [JObj [("content", JObj [("h1", JArr [JStr "A"])])];
               JObj [("content", JNull)]])].

(** The session with the page count 0 typed into its field. *)
Definition zeroCountSession : Session :=
  {| state := set_displayMaxPages "0" (set_maxPages (ofZ 0) (state initial));
     inFlight := 0 |}.

(** [{pages: [{content: null}]}] *)
Definition nullContentResult : json :=
  JObj [("pages", JArr [JObj [("content", JNull)]])].

End App.

(** * Properties *)

Import JsNumber Json App.

(** ** Built-ins *)

Lemma startsWith_app (p r : string) : JsString.startsWith (p ++ r) p = true.
Proof.
  unfold JsString.startsWith.
  induction p as [|c p IH]; simpl.
  - now destruct r.
  - destruct (ascii_dec c c) as [_|ne]; [exact IH | now elim ne].
Qed.

Lemma trimEnd_keeps (c : ascii) (r : string) :
  JsString.isWhiteSpace c = false ->
  JsString.trimEnd (String c r) = String c (JsString.trimEnd r).
Proof.
  intros H. simpl. rewrite H. now destruct (JsString.trimEnd r).
Qed.

Lemma trimStart_keeps (c : ascii) (r : string) :
  JsString.isWhiteSpace c = false ->
  JsString.trimStart (String c r) = String c r.
Proof. intros H. simpl. now rewrite H. Qed.

Lemma toLowerCase_app (a b : string) :
  JsString.toLowerCase (a ++ b) = JsString.toLowerCase a ++ JsString.toLowerCase b.
Proof. induction a as [|c a IH]; simpl; [reflexivity | now rewrite IH]. Qed.

Lemma trim_http (rest : string) :
  JsString.trim ("http://" ++ rest) = "http://" ++ JsString.trimEnd rest.
Proof.
  unfold JsString.trim. simpl append.
  rewrite trimStart_keeps by reflexivity.
  repeat (rewrite trimEnd_keeps by reflexivity). reflexivity.
Qed.

Lemma trim_https (rest : string) :
  JsString.trim ("https://" ++ rest) = "https://" ++ JsString.trimEnd rest.
Proof.
  unfold JsString.trim. simpl append.
  rewrite trimStart_keeps by reflexivity.
  repeat (rewrite trimEnd_keeps by reflexivity). reflexivity.
Qed.

Example builtin_samples :
  parseInt "  42px" = ofZ 42 /\
  parseInt "-7" = ofZ (-7) /\
  parseInt "1e21" = ofZ 1 /\
  parseInt "" = NaN /\
  parseInt "abc" = NaN /\
  toString (fun _ => "?") (ofZ 100) = "100" /\
  toString (fun _ => "?") (ofZ (-5)) = "-5" /\
  JsString.trim "  a b  " = "a b" /\
  JsString.toLowerCase "HTTP://Ex.COM" = "http://ex.com" /\
  Axios.buildFullPath "https://a.b/" "/crawl" = "https://a.b/crawl" /\
  Axios.buildFullPath "https://a.b" "HTTPS://x.y/crawl" = "HTTPS://x.y/crawl".
Proof. repeat split; reflexivity. Qed.

(** ** Input Validator: the URL *)

(** C9. The normalised URL is the trimmed, lower-cased input, with
    [https://] put in front exactly when that string starts with neither
    [http://] nor [https://].  An input without a scheme therefore becomes a
    string starting with [https://]; an input that already starts with
    [http://] or [https://] keeps that scheme, and what follows it is
    lower-cased (and trimmed at its end). *)
Theorem normalizedUrl_scheme (s : State) :
  let t := JsString.toLowerCase (JsString.trim (url s)) in
  normalizedUrl s
    = (if JsString.startsWith t "http://" || JsString.startsWith t "https://"
       then t else "https://" ++ t)
  /\ (JsString.startsWith t "http://" = false ->
      JsString.startsWith t "https://" = false ->
      normalizedUrl s = "https://" ++ t
      /\ JsString.startsWith (normalizedUrl s) "https://" = true)
  /\ (forall rest, url s = "http://" ++ rest ->
      normalizedUrl s = "http://" ++ JsString.toLowerCase (JsString.trimEnd rest))
  /\ (forall rest, url s = "https://" ++ rest ->
      normalizedUrl s = "https://" ++ JsString.toLowerCase (JsString.trimEnd rest)).
Proof.
  intros t. unfold normalizedUrl. fold t.
  split; [| split; [| split]].
  - destruct (JsString.startsWith t "http://"), (JsString.startsWith t "https://");
      reflexivity.
  - intros H1 H2. rewrite H1, H2. simpl negb. simpl andb. cbv iota.
    split; [reflexivity | apply startsWith_app].
  - intros rest Hu. subst t. rewrite Hu, trim_http, toLowerCase_app.
    change (JsString.toLowerCase "http://") with "http://".
    now rewrite startsWith_app.
  - intros rest Hu. subst t. rewrite Hu, trim_https, toLowerCase_app.
    change (JsString.toLowerCase "https://") with "https://".
    rewrite startsWith_app. simpl negb. rewrite andb_false_r. reflexivity.
Qed.

Lemma normalizedUrl_scheme_witness :
  normalizedUrl (set_url " Example.COM/Path " setup) = "https://example.com/path"
  /\ normalizedUrl (set_url "http://Example.COM " setup) = "http://example.com".
Proof.
  split.
  - apply (proj1 (proj2 (normalizedUrl_scheme (set_url " Example.COM/Path " setup))));
      reflexivity.
  - apply (proj1 (proj2 (proj2 (normalizedUrl_scheme
                                   (set_url "http://Example.COM " setup))))
             "Example.COM "); reflexivity.
Defined.

(** ** Rate Limiter *)

Lemma ceilSeconds_rounds_up (x : Z) :
  1000 * (ceilSeconds x - 1) < x <= 1000 * ceilSeconds x.
Proof.
  unfold ceilSeconds.
  pose proof (Z.div_mod (- x) 1000 ltac:(lia)) as E.
  pose proof (Z.mod_pos_bound (- x) 1000 ltac:(lia)) as B.
  lia.
Qed.

Lemma canCrawl_set_lastCrawlTime `{P : Platform} (t : Z) (s : State) :
  canCrawl (set_lastCrawlTime t s) = canCrawl s.
Proof. reflexivity. Qed.

(** C7. An attempt made less than 5000 ms after the recorded time of the
    last request returns at once with one alert and no request; the alert
    reads: Please wait, the remaining time in seconds as one digit, seconds
    before crawling again.  That number is the remaining time rounded up to
    a whole second, and lies between 1 and 5; the state, and with it the
    recorded time, is unchanged. *)
Theorem cooldown_rejects `{P : Platform} (now : Z) (s : State) :
  lastCrawlTime s <= now < lastCrawlTime s + CRAWL_COOLDOWN ->
  let remaining := 5000 - (now - lastCrawlTime s) in
  let seconds := ceilSeconds remaining in
  crawlWebsite now s
  = (s,
     [Alert ("Please wait " ++ String (ascii_of_N (Z.to_N (48 + seconds))) ""
               ++ " seconds before crawling again.")],
     Normal None)
  /\ 1000 * (seconds - 1) < remaining <= 1000 * seconds
  /\ 0 < seconds <= 5.
Proof.
  intros H remaining seconds.
  pose proof (ceilSeconds_rounds_up remaining) as R. fold seconds in R.
  assert (0 < remaining <= 5000) by (unfold remaining, CRAWL_COOLDOWN in *; lia).
  assert (B : 0 < seconds <= 5) by lia.
  split; [| split; [exact R | exact B]].
  unfold crawlWebsite, bind, get, emit, ret.
  replace (now - lastCrawlTime s <? CRAWL_COOLDOWN) with true
    by (symmetry; apply Z.ltb_lt; lia).
  change (ceilSeconds (CRAWL_COOLDOWN - (now - lastCrawlTime s))) with seconds.
  assert (E : seconds = 1 \/ seconds = 2 \/ seconds = 3 \/ seconds = 4 \/ seconds = 5)
    by lia.
  destruct E as [E | [E | [E | [E | E]]]]; rewrite E; reflexivity.
Qed.

Lemma cooldown_rejects_witness :
  @crawlWebsite samplePlatform 12001 (set_lastCrawlTime 10000 setup)
  = (set_lastCrawlTime 10000 setup,
     [Alert "Please wait 3 seconds before crawling again."], Normal None).
Proof.
  apply (@cooldown_rejects samplePlatform 12001 (set_lastCrawlTime 10000 setup)).
  simpl. unfold CRAWL_COOLDOWN. lia.
Defined.

(** Inside [crawlWebsite] the rate limiter is consulted first.  An
    attempt that input validation rejects sends no request; when it comes
    within the cooldown it is turned away by the rate limiter and the state
    is unchanged, otherwise its time is recorded before validation turns it
    away. *)
Theorem invalid_input_attempt `{P : Platform} (now : Z) (s : State) :
  canCrawl s = false ->
  crawlWebsite now s
  = if now - lastCrawlTime s <? CRAWL_COOLDOWN
    then (s,
          [Alert (waitMessage
                    (ceilSeconds (CRAWL_COOLDOWN - (now - lastCrawlTime s))))],
          Normal None)
    else (set_lastCrawlTime now s, [Alert invalidInputMessage], Normal None).
Proof.
  intros H.
  unfold crawlWebsite, bind, get, emit, ret, modify.
  destruct (now - lastCrawlTime s <? CRAWL_COOLDOWN); [reflexivity |].
  rewrite canCrawl_set_lastCrawlTime, H. reflexivity.
Qed.

Lemma invalid_input_attempt_witness :
  @crawlWebsite samplePlatform 10000 (set_url "" setup)
  = (set_lastCrawlTime 10000 (set_url "" setup),
     [Alert "Please enter a valid URL and number of pages (1-100)."],
     Normal None).
Proof.
  apply (@invalid_input_attempt samplePlatform 10000 (set_url "" setup)).
  reflexivity.
Defined.

(** With the page count 0 entered, an attempt at time 10000 is rejected by input validation, yet the recorded time moves
    from 0 to 10000. *)
Lemma validation_rejection_records_time :
  let s := @updateMaxPages samplePlatform (set_displayMaxPages "0" (state initial)) in
  let out := @crawlWebsite samplePlatform 10000 s in
  @canCrawl samplePlatform s = false
  /\ snd out = Normal None
  /\ snd (fst out) = [Alert "Please enter a valid URL and number of pages (1-100)."]
  /\ lastCrawlTime s = 0
  /\ lastCrawlTime (fst (fst out)) = 10000
  /\ lastCrawlTime (fst (fst out)) <> lastCrawlTime s.
Proof. repeat split; try reflexivity. discriminate. Qed.

(** C3, on the code.  With invalid input the crawl button is disabled, so
    a click sends nothing and records no time.  The Enter key of the URL
    field reaches [crawlWebsite] all the same: past the cooldown the attempt
    is rejected by input validation with the invalid-input alert and no
    request, yet its time has been recorded as the time of the last
    request. *)
Theorem enter_key_records_time_before_validation `{P : Platform}
    (x : Session) (now : Z) :
  canCrawl (state x) = false ->
  lastCrawlTime (state x) + CRAWL_COOLDOWN <= now ->
  fire (ClickCrawl now) x = None
  /\ fire (KeyupEnter now) x
     = Some ({| state := set_lastCrawlTime now (state x); inFlight := inFlight x |},
             [Alert "Please enter a valid URL and number of pages (1-100)."])
  /\ lastCrawlTime (set_lastCrawlTime now (state x)) = now.
Proof.
  intros C T. split; [| split; [| reflexivity]].
  - unfold fire, crawlDisabled. rewrite C. now rewrite orb_true_r.
  - unfold fire, handleKeyPress.
    change ("Enter" =? "Enter")%string with true. cbv iota.
    unfold crawlWebsite, started, bind, get, emit, ret, modify.
    replace (now - lastCrawlTime (state x) <? CRAWL_COOLDOWN) with false
      by (symmetry; apply Z.ltb_ge; lia).
    rewrite canCrawl_set_lastCrawlTime, C. cbn [negb posted].
    now rewrite Nat.add_0_r.
Qed.

Lemma enter_key_records_time_before_validation_witness :
  @fire samplePlatform (ClickCrawl 10000) zeroCountSession = None
  /\ @fire samplePlatform (KeyupEnter 10000) zeroCountSession
     = Some ({| state := set_lastCrawlTime 10000 (state zeroCountSession);
                inFlight := 0 |},
             [Alert "Please enter a valid URL and number of pages (1-100)."])
  /\ lastCrawlTime (set_lastCrawlTime 10000 (state zeroCountSession)) = 10000.
Proof.
  apply (@enter_key_records_time_before_validation samplePlatform
           zeroCountSession 10000);
    [reflexivity | simpl; unfold CRAWL_COOLDOWN; lia].
Defined.

(** ** Crawl Client: the address of the request *)

(** C10, on the code.  Without the build-time variable the request is
    posted to the relative address [undefined/crawl], which axios resolves
    against the default base address: the request goes to the default host,
    at the path [/undefined/crawl] and not [/crawl]. *)
Theorem absent_api_url_address `{P : Platform} (s : State) :
  VITE_API_URL = None ->
  endpoint (crawlRequest s) = "undefined/crawl"
  /\ apiUrl = "https://api.websitetotext.com"
  /\ requestAddress (crawlRequest s) = "https://api.websitetotext.com/undefined/crawl"
  /\ requestAddress (crawlRequest s) <> "https://api.websitetotext.com/crawl".
Proof.
  intros H.
  assert (E : endpoint (crawlRequest s) = "undefined/crawl")
    by (unfold crawlRequest; simpl; now rewrite H).
  assert (A : apiUrl = "https://api.websitetotext.com")
    by (unfold apiUrl; now rewrite H).
  assert (R : requestAddress (crawlRequest s)
              = "https://api.websitetotext.com/undefined/crawl")
    by (unfold requestAddress; now rewrite E, A).
  repeat split; try assumption.
  rewrite R. discriminate.
Qed.

Lemma absent_api_url_address_witness :
  @requestAddress samplePlatform (@crawlRequest samplePlatform setup)
  = "https://api.websitetotext.com/undefined/crawl".
Proof.
  apply (@absent_api_url_address samplePlatform setup). reflexivity.
Defined.

(** ** Crawl Client: try, catch, finally *)

Ltac break_match :=
  match goal with
  | |- context [match ?x with _ => _ end] => destruct x eqn:?
  end.

Ltac run_handler :=
  unfold tryCatchFinally, bind, get, emit, ret, modify, lift, await,
    sanitizeContent, rejectStructure.

(** Whatever the body and the handler do, a [finally] block that assigns a
    ref leaves that assignment in the final state. *)
Lemma finally_modify (body : M unit) (handler : exn -> M unit)
    (f : State -> State) (s : State) :
  exists s2, fst (fst (tryCatchFinally body handler (modify f) s)) = f s2.
Proof.
  unfold tryCatchFinally, modify.
  destruct (body s) as [[s1 e1] [u|e]].
  - now exists s1.
  - destruct (handler e s1) as [[s2 e2] r2]. now exists s2.
Qed.

(** C4. However the request settles, and whether or not the editor update
    throws, the continuation of [crawlWebsite] ends with [loading] false and
    does not throw.  When the request is rejected the only change of state
    is that of [loading]: the stored result is the one from before.  When it
    is fulfilled the body of the response is the stored result. *)
Theorem loading_cleared_on_every_path `{P : Platform} (o : settlement) (s : State) :
  loading (fst (fst (crawlWebsite_resumed o s))) = false
  /\ snd (crawlWebsite_resumed o s) = Normal tt
  /\ crawlWebsite_resumed Rejected s
     = (set_loading false s, [ConsoleError; crawlFailedAlert], Normal tt)
  /\ result (fst (fst (crawlWebsite_resumed Rejected s))) = result s
  /\ (forall data, result (fst (fst (crawlWebsite_resumed (Fulfilled data) s))) = data).
Proof.
  split; [| split; [| split; [| split]]].
  - unfold crawlWebsite_resumed.
    destruct (finally_modify
                (data <- await o ;;
                 modify (set_result data) ;;
                 s0 <- get ;;
                 match editorView s0 with
                 | Some _ =>
                     doc <- sanitizeContent (JSON_stringify (result s0)) ;;
                     modify (set_editorView (Some (editorText doc)))
                 | None => ret tt
                 end)
                (fun _ => emit ConsoleError ;; emit crawlFailedAlert)
                (set_loading false) s) as [s2 E].
    rewrite E. reflexivity.
  - unfold crawlWebsite_resumed. run_handler.
    destruct o as [data|]; simpl; [| reflexivity].
    destruct (editorView s); simpl; [| reflexivity].
    destruct (DOMPurify_sanitize _); reflexivity.
  - reflexivity.
  - reflexivity.
  - intros data. unfold crawlWebsite_resumed. run_handler. simpl.
    destruct (editorView s); simpl; [| reflexivity].
    destruct (DOMPurify_sanitize _); reflexivity.
Qed.

(** ** Result Exporter: the text export *)

(** C6. With no stored result, or one whose [pages] is not an array, the
    text export logs, raises the alert and returns: no blob is created and
    nothing is downloaded. *)
Theorem export_rejects_bad_structure `{P : Platform} (s : State) :
  result s = JNull \/ isArray (field "pages" (result s)) = false ->
  convertToTxt s = (s, rejectionTrace, Normal tt)
  /\ existsb isAlert rejectionTrace = true
  /\ existsb isNewBlob rejectionTrace = false
  /\ existsb isDownload rejectionTrace = false.
Proof.
  intros H. split; [| repeat split].
  unfold convertToTxt. run_handler. cbn beta iota.
  destruct (result s) as [| b | n | str | items | fields] eqn:R.
  - reflexivity.
  - destruct b; reflexivity.
  - cbn. destruct (isZero n || isNaN n); reflexivity.
  - cbn. destruct (JsString.isEmpty str); reflexivity.
  - reflexivity.
  - destruct H as [H | H]; [discriminate H |].
    cbn in H |- *. rewrite H. reflexivity.
Qed.

Lemma export_rejects_bad_structure_witness :
  @convertToTxt samplePlatform (set_result (JObj [("pages", JStr "none")]) setup)
  = (set_result (JObj [("pages", JStr "none")]) setup, rejectionTrace, Normal tt).
Proof.
  apply (@export_rejects_bad_structure samplePlatform
           (set_result (JObj [("pages", JStr "none")]) setup)).
  right. reflexivity.
Defined.

Lemma arrayOrEmpty_arrayField (name : string) (fields : list (string * json)) :
  arrayOrEmpty (lookup name fields) = arrayField name (JObj fields).
Proof.
  unfold arrayOrEmpty, arrayField, field.
  destruct (lookup name fields) as [[| | | | |]|]; reflexivity.
Qed.

(** On an array of strings [join] is the plain concatenation with
    separators. *)
Lemma join_strings (num : number -> string) (sep : string) (l : list string) :
  join num sep (map JStr l) = JsString.concatWith sep l.
Proof.
  unfold join. rewrite map_map. simpl. now rewrite map_id.
Qed.

(** A page whose [content] has a [typeof] other than ["object"] contributes
    nothing. *)
Lemma non_object_content_skipped (page : json) :
  typeof (field "content" page) <> "object" ->
  pageContribution page = Normal [].
Proof.
  intros H. unfold pageContribution.
  destruct (truthy (Some page)) eqn:T; [| reflexivity]. simpl negb. cbv iota.
  destruct page as [| b | n | str | items | fields]; try reflexivity.
  - discriminate T.
  - simpl in H |- *.
    destruct (typeof (lookup "content" fields) =? "object")%string eqn:E;
      [| reflexivity].
    apply String.eqb_eq in E. contradiction.
Qed.

(** Apart from a [null] content, the callback computes what the
    specification describes. *)
Lemma pageContribution_flattenedPage (page : json) :
  nullContent page = false ->
  pageContribution page = Normal (flattenedPage page).
Proof.
  intros H. unfold pageContribution.
  destruct (truthy (Some page)) eqn:T; simpl negb; cbv iota.
  - destruct page as [| b | n | str | items | fields]; try reflexivity.
    + discriminate T.
    + unfold nullContent, flattenedPage in *. simpl in H |- *.
      destruct (lookup "content" fields) as [[| b | n | str | items | cfields]|];
        try reflexivity.
      * discriminate H.
      * simpl. rewrite !arrayOrEmpty_arrayField.
        rewrite app_nil_r, <- !app_assoc. reflexivity.
  - destruct page as [| b | n | str | items | fields]; try reflexivity.
    discriminate T.
Qed.

(** On a [null] content the guard lets the page through, [typeof null]
    being ["object"], and the first read of a heading throws. *)
Lemma pageContribution_null_content (page : json) :
  nullContent page = true ->
  pageContribution page = Throw TypeError.
Proof.
  intros H. unfold nullContent in H.
  destruct page as [| b | n | str | items | fields]; try discriminate H.
  simpl in H. unfold pageContribution. simpl.
  destruct (lookup "content" fields) as [[| | | | |]|]; try discriminate H.
  reflexivity.
Qed.

Lemma flatMap_pages_normal (pageList : list json) :
  existsb nullContent pageList = false ->
  flatMap pageContribution pageList = Normal (flattened pageList).
Proof.
  induction pageList as [|page rest IH]; intros H; [reflexivity |].
  simpl in H. apply orb_false_elim in H as [Hp Hr].
  simpl. rewrite (pageContribution_flattenedPage page Hp), (IH Hr). reflexivity.
Qed.

Lemma flatMap_pages_throw (pageList : list json) :
  existsb nullContent pageList = true ->
  flatMap pageContribution pageList = Throw TypeError.
Proof.
  induction pageList as [|page rest IH]; intros H; [discriminate H |].
  simpl in H |- *.
  destruct (nullContent page) eqn:Hp.
  - now rewrite (pageContribution_null_content page Hp).
  - rewrite (pageContribution_flattenedPage page Hp). simpl in H.
    rewrite (IH H). reflexivity.
Qed.

Lemma pages_read (s : State) (pageList : list json) :
  field "pages" (result s) = Some (JArr pageList) ->
  truthy (Some (result s)) = true
  /\ getProp (Some (result s)) pages = Normal (Some (JArr pageList)).
Proof.
  intros H. destruct (result s) as [| | | | |fields]; try discriminate H.
  simpl in H |- *. now rewrite H.
Qed.

(** When the stored result has an array under [pages], and no page
    carries a [null] content, the text export completes with one blob: the
    two-newline join of the pages' contributions in page order, each page
    contributing its h1, h2, h3, h4 and text arrays in that order (an absent
    or non-array entry contributing nothing).  On the two-page example of
    the specification the blob is A, b and c, two newlines apart. *)
Theorem text_export_flattens `{P : Platform} (s : State) (pageList : list json) :
  field "pages" (result s) = Some (JArr pageList) ->
  existsb nullContent pageList = false ->
  convertToTxt s
  = (s,
     downloadTrace (join numberToString (newline ++ newline) (flattened pageList)),
     Normal tt)
  /\ convertToTxt (set_result sampleResult s)
     = (set_result sampleResult s,
        downloadTrace ("A" ++ newline ++ newline ++ "b" ++ newline ++ newline ++ "c"),
        Normal tt).
Proof.
  intros Hpages Hnull. split; [| reflexivity].
  destruct (pages_read s pageList Hpages) as [T G].
  unfold convertToTxt. run_handler. cbn beta iota.
  rewrite T, G. cbn. rewrite (flatMap_pages_normal pageList Hnull).
  reflexivity.
Qed.

Lemma text_export_flattens_witness :
  @convertToTxt samplePlatform (set_result sampleResult setup)
  = (set_result sampleResult setup,
     downloadTrace ("A" ++ newline ++ newline ++ "b" ++ newline ++ newline ++ "c"),
     Normal tt).
Proof.
  apply (proj1 (@text_export_flattens samplePlatform (set_result sampleResult setup)
                  [JObj [("content",
                          JObj [("h1", JArr [JStr "A"]);
                                ("text", JArr [JStr "b"; JStr "c"])])];
                   JObj [("content", JObj [])]]
                  eq_refl eq_refl)).
Defined.

(** C5, on the code.  A page whose [content] is [null] is not skipped: the
    export throws a TypeError after its first log line, and nothing is
    downloaded. *)
Theorem null_content_page_throws `{P : Platform} (s : State) (pageList : list json) :
  field "pages" (result s) = Some (JArr pageList) ->
  existsb nullContent pageList = true ->
  convertToTxt s = (s, [ConsoleLog], Throw TypeError).
Proof.
  intros Hpages Hnull.
  destruct (pages_read s pageList Hpages) as [T G].
  unfold convertToTxt. run_handler. cbn beta iota.
  rewrite T, G. cbn. rewrite (flatMap_pages_throw pageList Hnull).
  reflexivity.
Qed.

Lemma null_content_page_throws_witness :
  @convertToTxt samplePlatform (set_result nullContentResult setup)
  = (set_result nullContentResult setup, [ConsoleLog], Throw TypeError).
Proof.
  apply (@null_content_page_throws samplePlatform (set_result nullContentResult setup)
           [JObj [("content", JNull)]] eq_refl eq_refl).
Defined.

(** C1, on the code.  On the two pages
    [{content: {h1: ["A"]}}] and [{content: null}] the flattening the
    specification describes is the one string A, but the export throws a
    TypeError at the second page and exports nothing.  On the example of the
    specification, where every content is an object, the export is A, b and
    c joined by two line feeds. *)
Theorem text_export_aborts_on_null_content `{P : Platform} (s : State) :
  flattened (elements (field "pages" mixedNullResult)) = [JStr "A"]
  /\ convertToTxt (set_result mixedNullResult s)
     = (set_result mixedNullResult s, [ConsoleLog], Throw TypeError)
  /\ convertToTxt (set_result sampleResult s)
     = (set_result sampleResult s,
        [ConsoleLog; ConsoleLog; ConsoleLog;
         NewBlob ("A" ++ String "010" (String "010"
                    ("b" ++ String "010" (String "010" "c"))))
                 "text/plain;charset=utf-8";
         CreateObjectURL; Download "crawl_result.txt"; RevokeObjectURL],
        Normal tt).
Proof. repeat split. Qed.

(** ** The session *)

(** C8, on the code.  With a request in flight the crawl button is
    disabled, but the Enter key of the URL field still runs [crawlWebsite]:
    once the cooldown has passed it posts a second request while the first
    is awaiting its response. *)
Theorem enter_key_posts_while_loading `{P : Platform} (x : Session) (now : Z) :
  loading (state x) = true ->
  canCrawl (state x) = true ->
  lastCrawlTime (state x) + CRAWL_COOLDOWN <= now ->
  fire (ClickCrawl now) x = None
  /\ fire (KeyupEnter now) x
     = Some ({| state := set_loading true (set_lastCrawlTime now (state x));
                inFlight := S (inFlight x) |},
             [ConsoleLog; AxiosPost (crawlRequest (state x))]).
Proof.
  intros L C T. split.
  - simpl. unfold crawlDisabled. now rewrite L.
  - unfold fire, handleKeyPress.
    change ("Enter" =? "Enter")%string with true. cbv iota.
    unfold crawlWebsite, started. run_handler.
    replace (now - lastCrawlTime (state x) <? CRAWL_COOLDOWN) with false
      by (symmetry; apply Z.ltb_ge; lia).
    rewrite canCrawl_set_lastCrawlTime, C. simpl.
    now rewrite Nat.add_1_r.
Qed.

Lemma enter_key_posts_while_loading_witness :
  @run samplePlatform [InputUrl "example.com"; ClickCrawl 10000] initial
  = Some sampleLoading
  /\ @fire samplePlatform (ClickCrawl 15000) sampleLoading = None
  /\ @fire samplePlatform (KeyupEnter 15000) sampleLoading
     = Some ({| state := set_loading true (set_lastCrawlTime 15000 (state sampleLoading));
                inFlight := 2 |},
             [ConsoleLog; AxiosPost (@crawlRequest samplePlatform (state sampleLoading))]).
Proof.
  split; [reflexivity |].
  apply (@enter_key_posts_while_loading samplePlatform sampleLoading 15000);
    [reflexivity | reflexivity | simpl; unfold CRAWL_COOLDOWN; lia].
Defined.

(** ** Input Validator: the page count *)

Lemma min_bounded (p : number) :
  isNaN p = false -> le (min p MAX_CRAWL_PAGES) MAX_CRAWL_PAGES = true.
Proof.
  destruct p as [| | |q]; intros H; try reflexivity; [discriminate H |].
  unfold min, MAX_CRAWL_PAGES, ofZ.
  destruct (Qle_bool q (inject_Z 100)) eqn:E; simpl; [exact E | reflexivity].
Qed.

Lemma updateMaxPages_bounded `{P : Platform} (s : State) :
  le (maxPages s) MAX_CRAWL_PAGES = true ->
  le (maxPages (updateMaxPages s)) MAX_CRAWL_PAGES = true.
Proof.
  intros H. unfold updateMaxPages.
  destruct (isNaN (parseInt (displayMaxPages s))) eqn:E; simpl; [exact H |].
  now apply min_bounded.
Qed.

Lemma crawlWebsite_maxPages `{P : Platform} (now : Z) (s : State) :
  maxPages (fst (fst (crawlWebsite now s))) = maxPages s.
Proof.
  unfold crawlWebsite. run_handler.
  destruct (now - lastCrawlTime s <? CRAWL_COOLDOWN); [reflexivity |].
  rewrite canCrawl_set_lastCrawlTime.
  destruct (canCrawl s); reflexivity.
Qed.

Lemma crawlWebsite_resumed_maxPages `{P : Platform} (o : settlement) (s : State) :
  maxPages (fst (fst (crawlWebsite_resumed o s))) = maxPages s.
Proof.
  unfold crawlWebsite_resumed. run_handler.
  destruct o as [data|]; simpl; [| reflexivity].
  destruct (editorView s); simpl; [| reflexivity].
  destruct (DOMPurify_sanitize _); reflexivity.
Qed.

Lemma downloadJSON_state `{P : Platform} (s : State) :
  fst (fst (downloadJSON s)) = s.
Proof. unfold downloadJSON. run_handler. destruct (editorView s); reflexivity. Qed.

Lemma convertToTxt_state `{P : Platform} (s : State) :
  fst (fst (convertToTxt s)) = s.
Proof.
  unfold convertToTxt. run_handler. cbn beta iota.
  generalize (getProp (Some (result s)) pages) as g.
  generalize (truthy (Some (result s))) as t.
  intros [|] [v|e]; cbn; try reflexivity.
  destruct (isArray v); cbn; [| reflexivity].
  destruct (flatMap pageContribution (elements v)); reflexivity.
Qed.

(** The page count never exceeds the ceiling: it starts at 10 and is only
    assigned by [updateMaxPages], which clamps. *)
Lemma reachable_maxPages_bounded `{P : Platform} (x : Session) :
  reachable x -> le (maxPages (state x)) MAX_CRAWL_PAGES = true.
Proof.
  induction 1 as [| x ev x' e R IH F]; [reflexivity |].
  destruct ev; simpl in F.
  - injection F as <- _. exact IH.
  - injection F as <- _.
    apply (updateMaxPages_bounded (set_displayMaxPages v (state x))). exact IH.
  - unfold started in F.
    pose proof (crawlWebsite_maxPages now (state x)) as Hm.
    unfold handleKeyPress in F.
    change ("Enter" =? "Enter")%string with true in F. cbv iota in F.
    destruct (crawlWebsite now (state x)) as [[s1 e1] r1].
    injection F as <- _. simpl in *. now rewrite Hm.
  - destruct (crawlDisabled (state x)); [discriminate F |].
    unfold started in F.
    pose proof (crawlWebsite_maxPages now (state x)) as Hm.
    destruct (crawlWebsite now (state x)) as [[s1 e1] r1].
    injection F as <- _. simpl in *. now rewrite Hm.
  - destruct (downloadDisabled (state x)); [discriminate F |].
    unfold handled in F.
    pose proof (downloadJSON_state (state x)) as Hs.
    destruct (downloadJSON (state x)) as [[s1 e1] r1].
    injection F as <- _. simpl in *. now subst s1.
  - destruct (downloadDisabled (state x)); [discriminate F |].
    unfold handled in F.
    pose proof (convertToTxt_state (state x)) as Hs.
    destruct (convertToTxt (state x)) as [[s1 e1] r1].
    injection F as <- _. simpl in *. now subst s1.
  - destruct (inFlight x); [discriminate F |].
    pose proof (crawlWebsite_resumed_maxPages o (state x)) as Hm.
    destruct (crawlWebsite_resumed o (state x)) as [[s1 e1] r1].
    injection F as <- _. simpl in *. now rewrite Hm.
Qed.





(** * Further properties of the component *)

(** ** The normalised URL is in canonical form *)

Lemma isWhiteSpace_toLowerCaseUnit (c : ascii) :
  JsString.isWhiteSpace (JsString.toLowerCaseUnit c) = JsString.isWhiteSpace c.
Proof. destruct c as [[] [] [] [] [] [] [] []]; reflexivity. Qed.

Lemma toLowerCaseUnit_idem (c : ascii) :
  JsString.toLowerCaseUnit (JsString.toLowerCaseUnit c) = JsString.toLowerCaseUnit c.
Proof. destruct c as [[] [] [] [] [] [] [] []]; reflexivity. Qed.

Lemma toLowerCase_idem (s : string) :
  JsString.toLowerCase (JsString.toLowerCase s) = JsString.toLowerCase s.
Proof.
  induction s as [|c r IH]; simpl; [reflexivity |].
  now rewrite toLowerCaseUnit_idem, IH.
Qed.

Lemma trimStart_toLowerCase (s : string) :
  JsString.trimStart (JsString.toLowerCase s)
  = JsString.toLowerCase (JsString.trimStart s).
Proof.
  induction s as [|c r IH]; simpl; [reflexivity |].
  rewrite isWhiteSpace_toLowerCaseUnit.
  destruct (JsString.isWhiteSpace c); [exact IH | reflexivity].
Qed.

Lemma trimEnd_toLowerCase (s : string) :
  JsString.trimEnd (JsString.toLowerCase s)
  = JsString.toLowerCase (JsString.trimEnd s).
Proof.
  induction s as [|c r IH]; simpl; [reflexivity |].
  rewrite IH, isWhiteSpace_toLowerCaseUnit.
  destruct (JsString.trimEnd r); simpl; [| reflexivity].
  destruct (JsString.isWhiteSpace c); reflexivity.
Qed.

Lemma trimEnd_idem (s : string) :
  JsString.trimEnd (JsString.trimEnd s) = JsString.trimEnd s.
Proof.
  induction s as [|c r IH]; simpl; [reflexivity |].
  destruct (JsString.trimEnd r) as [|c' r'] eqn:E.
  - destruct (JsString.isWhiteSpace c) eqn:W; simpl; [reflexivity |].
    now rewrite W.
  - change (JsString.trimEnd (String c (String c' r')))
      with (match JsString.trimEnd (String c' r') with
            | EmptyString =>
                if JsString.isWhiteSpace c then EmptyString else String c EmptyString
            | String a b => String c (String a b)
            end).
    now rewrite IH.
Qed.

Lemma headKept_trimStart (s : string) : headKept (JsString.trimStart s) = true.
Proof.
  induction s as [|c r IH]; simpl; [reflexivity |].
  destruct (JsString.isWhiteSpace c) eqn:W; [exact IH |]. simpl. now rewrite W.
Qed.

Lemma trimStart_headKept (s : string) :
  headKept s = true -> JsString.trimStart s = s.
Proof.
  destruct s as [|c r]; simpl; [reflexivity |].
  now destruct (JsString.isWhiteSpace c).
Qed.

Lemma headKept_trimEnd (s : string) :
  headKept s = true -> headKept (JsString.trimEnd s) = true.
Proof.
  destruct s as [|c r]; simpl; [reflexivity |]. intros H.
  destruct (JsString.trimEnd r); simpl; [| exact H].
  destruct (JsString.isWhiteSpace c) eqn:W; simpl; [reflexivity |].
  now rewrite W.
Qed.

Lemma trim_idem (s : string) : JsString.trim (JsString.trim s) = JsString.trim s.
Proof.
  unfold JsString.trim.
  rewrite (trimStart_headKept (JsString.trimEnd (JsString.trimStart s)))
    by (apply headKept_trimEnd, headKept_trimStart).
  apply trimEnd_idem.
Qed.

Lemma trim_toLowerCase (s : string) :
  JsString.trim (JsString.toLowerCase s) = JsString.toLowerCase (JsString.trim s).
Proof.
  unfold JsString.trim. now rewrite trimStart_toLowerCase, trimEnd_toLowerCase.
Qed.

Lemma trimEnd_trim (s : string) :
  JsString.trimEnd (JsString.trim s) = JsString.trim s.
Proof. unfold JsString.trim. apply trimEnd_idem. Qed.

Lemma normalizedUrl_fixed (s : State) :
  JsString.startsWith (normalizedUrl s) "http://"
    || JsString.startsWith (normalizedUrl s) "https://" = true
  /\ JsString.trim (normalizedUrl s) = normalizedUrl s
  /\ JsString.toLowerCase (normalizedUrl s) = normalizedUrl s.
Proof.
  unfold normalizedUrl.
  set (t := JsString.toLowerCase (JsString.trim (url s))).
  assert (Tt : JsString.trim t = t)
    by (unfold t; now rewrite trim_toLowerCase, trim_idem).
  assert (Te : JsString.trimEnd t = t)
    by (unfold t; now rewrite trimEnd_toLowerCase, trimEnd_trim).
  assert (Tl : JsString.toLowerCase t = t) by (unfold t; apply toLowerCase_idem).
  destruct (JsString.startsWith t "http://") eqn:A; cbn [negb andb].
  - rewrite A. auto.
  - destruct (JsString.startsWith t "https://") eqn:B; cbn [negb andb].
    + rewrite A, B. auto.
    + rewrite (startsWith_app "https://" t), orb_true_r.
      split; [reflexivity |]. split.
      * rewrite trim_https. now rewrite Te.
      * rewrite toLowerCase_app, Tl. reflexivity.
Qed.

(** X1. Whatever is typed, the normalised URL starts with [http://] or
    [https://], has no white space at either end and no upper-case letter
    left; and normalising is idempotent: a normalised URL put back into the
    field normalises to itself. *)
Theorem normalizedUrl_canonical (s : State) :
  JsString.startsWith (normalizedUrl s) "http://"
    || JsString.startsWith (normalizedUrl s) "https://" = true
  /\ JsString.trim (normalizedUrl s) = normalizedUrl s
  /\ JsString.toLowerCase (normalizedUrl s) = normalizedUrl s
  /\ normalizedUrl (set_url (normalizedUrl s) s) = normalizedUrl s.
Proof.
  destruct (normalizedUrl_fixed s) as [H [T L]].
  repeat split; try assumption.
  unfold normalizedUrl at 1.
  change (url (set_url (normalizedUrl s) s)) with (normalizedUrl s).
  rewrite T, L.
  apply orb_true_iff in H as [H | H]; rewrite H; simpl; [reflexivity |].
  now rewrite andb_false_r.
Qed.

(** ** The three ways an attempt ends *)

Lemma crawlWebsite_cases `{P : Platform} (now : Z) (s : State) :
  crawlWebsite now s
  = if now - lastCrawlTime s <? CRAWL_COOLDOWN
    then (s,
          [Alert (waitMessage
                    (ceilSeconds (CRAWL_COOLDOWN - (now - lastCrawlTime s))))],
          Normal None)
    else if canCrawl s
    then (set_loading true (set_lastCrawlTime now s),
          [ConsoleLog; AxiosPost (crawlRequest s)],
          Normal (Some (crawlRequest s)))
    else (set_lastCrawlTime now s, [Alert invalidInputMessage], Normal None).
Proof.
  unfold crawlWebsite. run_handler.
  destruct (now - lastCrawlTime s <? CRAWL_COOLDOWN); [reflexivity |].
  rewrite canCrawl_set_lastCrawlTime.
  destruct (canCrawl s); reflexivity.
Qed.

Lemma crawlWebsite_resumed_cases `{P : Platform} (o : settlement) (s : State) :
  crawlWebsite_resumed o s
  = match o with
    | Rejected => (set_loading false s, [ConsoleError; crawlFailedAlert], Normal tt)
    | Fulfilled data =>
        match editorView s with
        | None => (set_loading false (set_result data s), [], Normal tt)
        | Some _ =>
            match DOMPurify_sanitize (JSON_stringify data) with
            | Normal doc =>
                (set_loading false
                   (set_editorView (Some (editorText doc)) (set_result data s)),
                 [], Normal tt)
            | Throw _ =>
                (set_loading false (set_result data s),
                 [ConsoleError; crawlFailedAlert], Normal tt)
            end
        end
    end.
Proof.
  unfold crawlWebsite_resumed. run_handler.
  destruct o as [data|]; simpl; [| reflexivity].
  destruct (editorView s); simpl; [| reflexivity].
  destruct (DOMPurify_sanitize (JSON_stringify data)); reflexivity.
Qed.

(** ** The page-count field *)

Lemma parseDigits_uint (d : Decimal.uint) (a : Z) :
  parseDigits (Some a) (NilEmpty.string_of_uint d) = Some (uintValue a d).
Proof.
  revert a. induction d; intros a; cbn -[Z.mul Z.add]; try apply IHd.
  reflexivity.
Qed.

Lemma parseInt_digits (d : Decimal.uint) :
  d <> Decimal.Nil ->
  parseInt (NilEmpty.string_of_uint d) = ofInteger (uintValue 0 d)
  /\ parseInt (String "-" (NilEmpty.string_of_uint d)) = ofInteger (- uintValue 0 d).
Proof.
  intros H. destruct d; [now elim H | ..];
    unfold parseInt; cbn -[Z.mul Z.add Z.opp uintValue parseDigits];
    (split; cbn -[Z.mul Z.add Z.opp uintValue]; now rewrite parseDigits_uint).
Qed.

Lemma uintValue_of_lu (d : Decimal.uint) (a : Z) :
  uintValue a d
  = Z.of_N (DecimalPos.Unsigned.of_lu (Decimal.rev d))
    + a * 10 ^ Z.of_N (DecimalPos.Unsigned.usize d).
Proof.
  revert a.
  induction d; intros a; cbn [uintValue]; simpl DecimalPos.Unsigned.usize;
    [simpl; lia | ..];
    rewrite IHd; unfold Decimal.rev; simpl Decimal.revapp;
    rewrite (DecimalPos.Unsigned.of_lu_revapp d (_ Decimal.Nil));
    simpl DecimalPos.Unsigned.of_lu;
    rewrite N2Z.inj_add, N2Z.inj_mul, N2Z.inj_pow, N2Z.inj_succ,
      Z.pow_succ_r by apply N2Z.is_nonneg;
    fold (Decimal.rev d); cbn [Z.of_N]; ring.
Qed.

Lemma uintValue_to_uint (p : positive) : uintValue 0 (Pos.to_uint p) = Zpos p.
Proof.
  rewrite uintValue_of_lu, <- DecimalPos.Unsigned.of_uint_alt,
    DecimalPos.Unsigned.of_to.
  simpl Z.of_N. lia.
Qed.

(** The decimal digits of an integer read back as that integer. *)
Lemma ofInteger_exact (z : Z) : Z.abs z <= 2 ^ 53 -> ofInteger z = ofZ z.
Proof.
  intros H. unfold ofInteger. apply Z.leb_le in H. now rewrite H.
Qed.

Lemma parseInt_decimal_integer (z : Z) : parseInt (decimal z) = ofInteger z.
Proof.
  unfold decimal. destruct z as [|p|p]; [reflexivity | |];
    pose proof (DecimalPos.Unsigned.to_uint_nonnil p) as N;
    destruct (parseInt_digits (Pos.to_uint p) N) as [Hp Hn];
    rewrite uintValue_to_uint in *; simpl Z.to_int;
    unfold NilZero.string_of_int, NilZero.string_of_uint.
  - destruct (Pos.to_uint p); [now elim N | ..]; exact Hp.
  - destruct (Pos.to_uint p); [now elim N | ..]; exact Hn.
Qed.

Lemma parseInt_decimal (z : Z) :
  Z.abs z <= 2 ^ 53 -> parseInt (decimal z) = ofZ z.
Proof.
  intros H. rewrite parseInt_decimal_integer. now apply ofInteger_exact.
Qed.

Lemma numberToString_ofZ `{P : Platform} (z : Z) :
  Z.abs z <= 2 ^ 53 -> numberToString (ofZ z) = decimal z.
Proof.
  intros H. unfold numberToString, toString, ofZ, inject_Z, integral.
  cbn [Qnum Qden]. rewrite Z.mod_1_r, Z.div_1_r.
  apply Z.leb_le in H. rewrite H. reflexivity.
Qed.

Lemma min_below (z : Z) : z <= 100 -> min (ofZ z) MAX_CRAWL_PAGES = ofZ z.
Proof.
  intros H. unfold min, MAX_CRAWL_PAGES, ofZ, inject_Z, Qle_bool. simpl.
  replace (z * 1 <=? 100) with true by (symmetry; apply Z.leb_le; lia).
  reflexivity.
Qed.

(** X2. After [updateMaxPages] the field shows the stored page count, for a
    count that is an integer between -2^53 and 100: the field's text is the
    count's decimal digits, it reads back as the count, and running
    [updateMaxPages] again changes nothing. *)
Theorem page_count_display_round_trip `{P : Platform} (s : State) (z : Z) :
  maxPages (updateMaxPages s) = ofZ z ->
  - 2 ^ 53 <= z <= 100 ->
  displayMaxPages (updateMaxPages s) = decimal z
  /\ parseInt (displayMaxPages (updateMaxPages s)) = maxPages (updateMaxPages s)
  /\ updateMaxPages (updateMaxPages s) = updateMaxPages s.
Proof.
  intros E B.
  assert (A : Z.abs z <= 2 ^ 53)
    by (change (2 ^ 53) with 9007199254740992 in *; lia).
  assert (D : displayMaxPages (updateMaxPages s) = decimal z).
  { unfold updateMaxPages in *. cbn [displayMaxPages set_displayMaxPages].
    cbn [maxPages set_displayMaxPages] in E. rewrite E.
    now apply numberToString_ofZ. }
  split; [exact D |]. split; [rewrite D, E; now apply parseInt_decimal |].
  remember (updateMaxPages s) as s' eqn:S'. clear S'.
  unfold updateMaxPages. rewrite D, parseInt_decimal by exact A.
  cbn [isNaN ofZ negb]. cbv iota.
  fold (ofZ z). rewrite min_below by lia.
  cbn [maxPages set_maxPages]. rewrite numberToString_ofZ by exact A.
  destruct s'; cbn in *. now subst.
Qed.

Lemma page_count_display_round_trip_witness :
  @updateMaxPages samplePlatform
    (@updateMaxPages samplePlatform (set_displayMaxPages " 42 pages" setup))
  = @updateMaxPages samplePlatform (set_displayMaxPages " 42 pages" setup).
Proof.
  apply (@page_count_display_round_trip samplePlatform
           (set_displayMaxPages " 42 pages" setup) 42); [reflexivity |].
  change (2 ^ 53) with 9007199254740992. lia.
Defined.

(** X3. Text that does not read as a number is discarded: the page count is
    kept, and the field is reset to show it. *)
Theorem non_numeric_input_restores_display `{P : Platform} (s : State) (v : string) :
  parseInt v = NaN ->
  updateMaxPages (set_displayMaxPages v s)
  = set_displayMaxPages (numberToString (maxPages s)) s
  /\ canCrawl (updateMaxPages (set_displayMaxPages v s)) = canCrawl s.
Proof.
  intros H. unfold updateMaxPages.
  change (displayMaxPages (set_displayMaxPages v s)) with v. rewrite H.
  split; reflexivity.
Qed.

Lemma non_numeric_input_restores_display_witness :
  @updateMaxPages samplePlatform (set_displayMaxPages "" setup) = setup.
Proof.
  apply (@non_numeric_input_restores_display samplePlatform setup ""). reflexivity.
Defined.

(** [updateMaxPages] touches the page count and its field only. *)
Lemma updateMaxPages_frame `{P : Platform} (s : State) :
  lastCrawlTime (updateMaxPages s) = lastCrawlTime s.
Proof.
  unfold updateMaxPages.
  destruct (isNaN (parseInt (displayMaxPages s))); reflexivity.
Qed.

(** X4. A count of zero or below is stored as [parseInt] reads it, not
    raised to 1: it fails
    the page-count check, so the crawl button is disabled, and an attempt by
    the Enter key that passes the cooldown ends in the invalid-input alert
    with no request. *)
Theorem non_positive_count_blocks_crawl `{P : Platform}
    (s : State) (v : string) (z now : Z) :
  parseInt v = ofZ z -> z <= 0 ->
  lastCrawlTime s + CRAWL_COOLDOWN <= now ->
  let s' := updateMaxPages (set_displayMaxPages v s) in
  maxPages s' = ofZ z
  /\ canCrawl s' = false
  /\ crawlDisabled s' = true
  /\ handleKeyPress "Enter" now s'
     = (set_lastCrawlTime now s', [Alert invalidInputMessage], Normal None).
Proof.
  intros E Hz T s'.
  assert (M : maxPages s' = ofZ z).
  { unfold s', updateMaxPages.
    change (displayMaxPages (set_displayMaxPages v s)) with v. rewrite E.
    cbn [isNaN ofZ negb]. cbv iota. fold (ofZ z).
    cbn [maxPages set_displayMaxPages set_maxPages]. apply min_below. lia. }
  assert (C : canCrawl s' = false).
  { unfold canCrawl, isValidMaxPages. rewrite M.
    unfold gt, ofZ, inject_Z, Qle_bool. simpl.
    replace (z * 1 <=? 0) with true by (symmetry; apply Z.leb_le; lia).
    simpl. now rewrite !andb_false_r. }
  split; [exact M |]. split; [exact C |]. split.
  - unfold crawlDisabled. rewrite C. apply orb_true_r.
  - unfold handleKeyPress. change ("Enter" =? "Enter")%string with true. cbv iota.
    rewrite crawlWebsite_cases, C.
    replace (now - lastCrawlTime s' <? CRAWL_COOLDOWN) with false; [reflexivity |].
    symmetry. apply Z.ltb_ge.
    unfold s'. rewrite updateMaxPages_frame. simpl. lia.
Qed.

Lemma non_positive_count_blocks_crawl_witness :
  @crawlDisabled samplePlatform
    (@updateMaxPages samplePlatform
       (set_displayMaxPages "-3" (set_url "example.com" setup))) = true.
Proof.
  apply (@non_positive_count_blocks_crawl samplePlatform
           (set_url "example.com" setup) "-3" (-3) 5000);
    [reflexivity | lia | simpl; unfold CRAWL_COOLDOWN; lia].
Defined.

(** ** Exports *)

Lemma downloadJSON_cases `{P : Platform} (s : State) :
  downloadJSON s
  = match editorView s with
    | None => (s, [], Normal tt)
    | Some doc => (s, jsonDownloadTrace doc, Normal tt)
    end.
Proof. unfold downloadJSON. run_handler. destruct (editorView s); reflexivity. Qed.

Lemma convertToTxt_outcomes `{P : Platform} (s : State) :
  convertToTxt s = (s, rejectionTrace, Normal tt)
  \/ (exists e, convertToTxt s = (s, [ConsoleLog], Throw e))
  \/ (exists txt, convertToTxt s = (s, downloadTrace txt, Normal tt)).
Proof.
  unfold convertToTxt. run_handler. cbn beta iota.
  generalize (getProp (Some (result s)) pages) as g.
  generalize (truthy (Some (result s))) as t.
  intros [|] [v|e]; cbn; try (left; reflexivity).
  - destruct (isArray v); cbn; [| left; reflexivity].
    destruct (flatMap pageContribution (elements v)) as [l|e]; right.
    + right. eexists. reflexivity.
    + left. eexists. reflexivity.
  - right. left. eexists. reflexivity.
Qed.

(** X5. Neither export changes the component's state or posts a request; each
    object URL an export creates it also revokes, and each blob it makes it
    downloads.  The JSON export never throws. *)
Theorem exports_read_only `{P : Platform} (s : State) :
  fst (fst (convertToTxt s)) = s
  /\ fst (fst (downloadJSON s)) = s
  /\ snd (downloadJSON s) = Normal tt
  /\ cleanExport (snd (fst (convertToTxt s))) = true
  /\ cleanExport (snd (fst (downloadJSON s))) = true.
Proof.
  rewrite downloadJSON_cases.
  destruct (convertToTxt_outcomes s) as [E | [[e E] | [txt E]]]; rewrite E;
    destruct (editorView s); repeat split.
Qed.

(** ** The session: rate limiting *)

Ltac fire_inversion F :=
  match type of F with
  | fire ?ev ?x = Some _ =>
      destruct ev as [v | v | now | now | | | o]; unfold fire in F;
      [ | 
      | unfold handleKeyPress in F;
        change ("Enter" =? "Enter")%string with true in F; cbv iota in F;
        rewrite crawlWebsite_cases in F;
        destruct (now - lastCrawlTime (state x) <? CRAWL_COOLDOWN) eqn:Hcool;
        [| destruct (canCrawl (state x)) eqn:Hcan]
      | destruct (crawlDisabled (state x)) eqn:Hdis; [discriminate F |];
        rewrite crawlWebsite_cases in F;
        destruct (now - lastCrawlTime (state x) <? CRAWL_COOLDOWN) eqn:Hcool;
        [| destruct (canCrawl (state x)) eqn:Hcan]
      | destruct (downloadDisabled (state x)) eqn:Hdis; [discriminate F |];
        rewrite downloadJSON_cases in F;
        destruct (editorView (state x)) eqn:Hed
      | destruct (downloadDisabled (state x)) eqn:Hdis; [discriminate F |];
        let E := fresh "E" in
        destruct (convertToTxt_outcomes (state x)) as [E | [[? E] | [? E]]];
        rewrite E in F
      | destruct (inFlight x) eqn:Hfl; [discriminate F |];
        rewrite crawlWebsite_resumed_cases in F;
        destruct o as [data|];
        [ destruct (editorView (state x)) eqn:Hed;
          [ destruct (DOMPurify_sanitize (JSON_stringify data)) eqn:Hsan | ]
        | ] ];
      unfold started, handled, posted in F; cbv beta iota zeta in F;
      injection F as <- <-
  end.

Lemma cooldown_passed (now last : Z) :
  (now - last <? CRAWL_COOLDOWN) = false -> last + CRAWL_COOLDOWN <= now.
Proof. intros H. apply Z.ltb_ge in H. lia. Qed.

Lemma fire_lastCrawlTime `{P : Platform} (ev : event) (x x' : Session)
    (e : list effect) :
  fire ev x = Some (x', e) ->
  lastCrawlTime (state x) <= lastCrawlTime (state x').
Proof.
  intros F. fire_inversion F; cbn [state]; try rewrite updateMaxPages_frame;
    cbn; try lia;
    apply cooldown_passed in Hcool; unfold CRAWL_COOLDOWN in Hcool; lia.
Qed.

(** Along any run of events the recorded time of the last request never
    goes back, whatever the clock readings are. *)
Lemma run_lastCrawlTime `{P : Platform} (evs : list event) (x x' : Session) :
  run evs x = Some x' ->
  lastCrawlTime (state x) <= lastCrawlTime (state x').
Proof.
  revert x. induction evs as [|ev r IH]; intros x R; simpl in R.
  - injection R as <-. lia.
  - destruct (fire ev x) as [[x1 e1]|] eqn:F; [| discriminate R].
    pose proof (fire_lastCrawlTime ev x x1 e1 F). specialize (IH x1 R). lia.
Qed.

(** What holds whenever an event posts a request. *)
Lemma fire_post `{P : Platform} (ev : event) (x x' : Session) (e : list effect) :
  fire ev x = Some (x', e) ->
  existsb isAxiosPost e = true ->
  exists now,
    eventTime ev = Some now
    /\ lastCrawlTime (state x) + CRAWL_COOLDOWN <= now
    /\ canCrawl (state x) = true
    /\ e = [ConsoleLog; AxiosPost (crawlRequest (state x))]
    /\ state x' = set_loading true (set_lastCrawlTime now (state x))
    /\ inFlight x' = S (inFlight x).
Proof.
  intros F A. fire_inversion F; try discriminate A;
    exists now; cbn [state inFlight eventTime];
    (repeat split; [now apply cooldown_passed | apply Nat.add_1_r]).
Qed.

(** X6. Two requests posted in one session are at least 5000 ms apart by the
    clock readings of their attempts, whatever happens in between. *)
Theorem posts_are_spaced `{P : Platform} (ev1 ev2 : event) (evs : list event)
    (x x1 x2 x3 : Session) (e1 e2 : list effect) (t1 t2 : Z) :
  fire ev1 x = Some (x1, e1) -> existsb isAxiosPost e1 = true ->
  eventTime ev1 = Some t1 ->
  run evs x1 = Some x2 ->
  fire ev2 x2 = Some (x3, e2) -> existsb isAxiosPost e2 = true ->
  eventTime ev2 = Some t2 ->
  t1 + CRAWL_COOLDOWN <= t2.
Proof.
  intros F1 A1 T1 R F2 A2 T2.
  destruct (fire_post ev1 x x1 e1 F1 A1) as [n1 [N1 [_ [_ [_ [S1 _]]]]]].
  destruct (fire_post ev2 x2 x3 e2 F2 A2) as [n2 [N2 [C2 _]]].
  rewrite T1 in N1. injection N1 as <-. rewrite T2 in N2. injection N2 as <-.
  pose proof (run_lastCrawlTime evs x1 x2 R) as M.
  rewrite S1 in M. cbn in M. lia.
Qed.

Lemma posts_are_spaced_witness : 10000 + CRAWL_COOLDOWN <= 15000.
Proof.
  eapply (@posts_are_spaced samplePlatform
           (ClickCrawl 10000) (KeyupEnter 15000) [InputMaxPages "20"]
           {| state := set_url "example.com" (state initial); inFlight := 0 |}
           sampleLoading
           {| state := @updateMaxPages samplePlatform
                         (set_displayMaxPages "20" (state sampleLoading));
              inFlight := 1 |}
           {| state := set_loading true
                         (set_lastCrawlTime 15000
                            (@updateMaxPages samplePlatform
                               (set_displayMaxPages "20" (state sampleLoading))));
              inFlight := 2 |}
           _ _ 10000 15000); reflexivity.
Defined.



(** ** The session: requests in flight *)

Lemma updateMaxPages_loading `{P : Platform} (s : State) :
  loading (updateMaxPages s) = loading s.
Proof.
  unfold updateMaxPages.
  destruct (isNaN (parseInt (displayMaxPages s))); reflexivity.
Qed.

(** X8. In every state the session can reach, a set [loading] flag means a
    request is awaiting its response. *)
Theorem loading_implies_in_flight `{P : Platform} (x : Session) :
  reachable x -> loading (state x) = true -> (0 < inFlight x)%nat.
Proof.
  induction 1 as [| x ev x' e R IH F]; [discriminate |].
  fire_inversion F; cbn [state inFlight]; try rewrite updateMaxPages_loading;
    cbn; try discriminate; try lia;
    intros L; specialize (IH L); lia.
Qed.

Lemma loading_implies_in_flight_witness : (0 < inFlight sampleLoading)%nat.
Proof.
  apply (@loading_implies_in_flight samplePlatform sampleLoading); [| reflexivity].
  apply (@reachable_fire samplePlatform
           {| state := set_url "example.com" (state initial); inFlight := 0 |}
           (ClickCrawl 10000) sampleLoading
           [ConsoleLog;
            AxiosPost (@crawlRequest samplePlatform
                         (set_url "example.com" (state initial)))]);
    [| reflexivity].
  apply (@reachable_fire samplePlatform initial (InputUrl "example.com") _ []);
    [apply reachable_initial | reflexivity].
Defined.

Lemma fire_serial `{P : Platform} (ev : event) (x x' : Session) (e : list effect) :
  isKeyupEnter ev = false ->
  inFlight x = (if loading (state x) then 1 else 0)%nat ->
  fire ev x = Some (x', e) ->
  inFlight x' = (if loading (state x') then 1 else 0)%nat.
Proof.
  intros K I F. fire_inversion F; try discriminate K;
    cbn [state inFlight]; try rewrite updateMaxPages_loading; cbn;
    try exact I; try (rewrite Nat.add_0_r; exact I).
  - unfold crawlDisabled in Hdis. apply orb_false_elim in Hdis as [L _].
    rewrite L in I. rewrite I. reflexivity.
  - destruct (loading (state x)); [congruence | discriminate].
  - destruct (loading (state x)); [congruence | discriminate].
  - destruct (loading (state x)); [congruence | discriminate].
  - destruct (loading (state x)); [congruence | discriminate].
Qed.

(** X9. As long as the Enter key is not used, requests are serialised: from the
    initial session, after any run of the other events at most one request
    is in flight, and one is in flight exactly when [loading] is set. *)
Theorem button_serialises_requests `{P : Platform} (evs : list event) (x : Session) :
  forallb (fun ev => negb (isKeyupEnter ev)) evs = true ->
  run evs initial = Some x ->
  inFlight x = (if loading (state x) then 1 else 0)%nat
  /\ (inFlight x <= 1)%nat.
Proof.
  intros K R.
  assert (I : inFlight x = (if loading (state x) then 1 else 0)%nat).
  { assert (I0 : inFlight initial = (if loading (state initial) then 1 else 0)%nat)
      by reflexivity.
    revert K R I0. generalize initial as x0.
    induction evs as [|ev r IH]; intros x0 K R I0; simpl in K, R.
    - now injection R as <-.
    - apply andb_prop in K as [K1 K2]. apply negb_true_iff in K1.
      destruct (fire ev x0) as [[x1 e1]|] eqn:F; [| discriminate R].
      apply (IH x1 K2 R). exact (fire_serial ev x0 x1 e1 K1 I0 F). }
  split; [exact I |]. rewrite I. destruct (loading (state x)); lia.
Qed.

Lemma button_serialises_requests_witness :
  inFlight sampleLoading = (if loading (state sampleLoading) then 1 else 0)%nat
  /\ (inFlight sampleLoading <= 1)%nat.
Proof.
  apply (@button_serialises_requests samplePlatform
           [InputUrl "example.com"; ClickCrawl 10000] sampleLoading);
    reflexivity.
Defined.

(** ** The session: what is stored and what is sent *)

(** X10. The stored result is written by a fulfilled response and by nothing
    else: any other event leaves it as it was, and a fulfilled response
    replaces it with its body. *)
Theorem result_written_by_fulfilled_response `{P : Platform}
    (ev : event) (x x' : Session) (e : list effect) :
  fire ev x = Some (x', e) ->
  match ev with
  | Settle (Fulfilled data) => result (state x') = data
  | _ => result (state x') = result (state x)
  end.
Proof.
  intros F. fire_inversion F; cbn [state]; try reflexivity.
  unfold updateMaxPages.
  destruct (isNaN (parseInt (displayMaxPages (set_displayMaxPages v (state x)))));
    reflexivity.
Qed.

Lemma result_written_by_fulfilled_response_witness :
  result (state {| state := set_loading false
                              (set_editorView (Some "{}")
                                 (set_result sampleResult (state sampleLoading)));
                   inFlight := 0 |}) = sampleResult.
Proof.
  apply (@result_written_by_fulfilled_response samplePlatform
           (Settle (Fulfilled sampleResult)) sampleLoading _ []).
  reflexivity.
Defined.

(** X11. Every request a reachable session posts carries a URL that parses and
    starts with [http://] or [https://], and a page count that is an
    integer from 1 to 100. *)
Theorem posted_request_is_valid `{P : Platform} (ev : event) (x x' : Session)
    (e : list effect) (r : request) :
  reachable x ->
  fire ev x = Some (x', e) ->
  In (AxiosPost r) e ->
  urlParses (body_url r) = true
  /\ JsString.startsWith (body_url r) "http://"
       || JsString.startsWith (body_url r) "https://" = true
  /\ isInteger (body_max_pages r) = true
  /\ gt (body_max_pages r) (ofZ 0) = true
  /\ le (body_max_pages r) MAX_CRAWL_PAGES = true.
Proof.
  intros R F I.
  assert (A : existsb isAxiosPost e = true)
    by (apply existsb_exists; exists (AxiosPost r); split; [exact I | reflexivity]).
  destruct (fire_post ev x x' e F A) as [now [_ [_ [C [E _]]]]].
  subst e. destruct I as [I | [I | []]]; [discriminate I |].
  injection I as <-. cbn [body_url body_max_pages crawlRequest].
  unfold canCrawl, isValidUrl, isValidMaxPages in C.
  apply andb_prop in C as [U V]. apply andb_prop in V as [V1 V2].
  repeat split; try assumption.
  - apply normalizedUrl_fixed.
  - now apply reachable_maxPages_bounded.
Qed.

Lemma posted_request_is_valid_witness :
  @urlParses samplePlatform "https://example.com" = true
  /\ JsString.startsWith "https://example.com" "http://"
       || JsString.startsWith "https://example.com" "https://" = true
  /\ isInteger (ofZ 10) = true
  /\ gt (ofZ 10) (ofZ 0) = true
  /\ le (ofZ 10) MAX_CRAWL_PAGES = true.
Proof.
  apply (@posted_request_is_valid samplePlatform (ClickCrawl 10000)
           {| state := set_url "example.com" (state initial); inFlight := 0 |}
           sampleLoading
           [ConsoleLog;
            AxiosPost (@crawlRequest samplePlatform
                         (set_url "example.com" (state initial)))]
           (@crawlRequest samplePlatform (set_url "example.com" (state initial)))).
  - apply (@reachable_fire samplePlatform initial (InputUrl "example.com") _ []);
      [apply reachable_initial | reflexivity].
  - reflexivity.
  - right. left. reflexivity.
Defined.

(** ** The editor and the exports *)

Lemma convertToTxt_result_only `{P : Platform} (s1 s2 : State) :
  result s1 = result s2 ->
  snd (fst (convertToTxt s1)) = snd (fst (convertToTxt s2))
  /\ snd (convertToTxt s1) = snd (convertToTxt s2).
Proof.
  intros H. unfold convertToTxt. run_handler. cbn beta iota. rewrite H.
  generalize (getProp (Some (result s2)) pages) as g.
  generalize (truthy (Some (result s2))) as t.
  intros [|] [v|e]; cbn; try (split; reflexivity).
  destruct (isArray v); cbn; [| split; reflexivity].
  destruct (flatMap pageContribution (elements v)); split; reflexivity.
Qed.

Lemma downloadJSON_editor_only `{P : Platform} (s1 s2 : State) :
  editorView s1 = editorView s2 ->
  snd (fst (downloadJSON s1)) = snd (fst (downloadJSON s2)).
Proof.
  intros H. rewrite !downloadJSON_cases, H. now destruct (editorView s2).
Qed.

(** X12. The text export is computed from the stored result alone, the JSON
    export from the editor's document alone: states that agree on the one
    give the same text export, states that agree on the other the same JSON
    export, whatever else differs. *)
Theorem exports_sources `{P : Platform} (s1 s2 : State) :
  (result s1 = result s2 ->
   snd (fst (convertToTxt s1)) = snd (fst (convertToTxt s2))
   /\ snd (convertToTxt s1) = snd (convertToTxt s2))
  /\ (editorView s1 = editorView s2 ->
      snd (fst (downloadJSON s1)) = snd (fst (downloadJSON s2))).
Proof.
  split; [apply convertToTxt_result_only | apply downloadJSON_editor_only].
Qed.

Lemma exports_sources_witness :
  snd (fst (@convertToTxt samplePlatform
              (set_editorView (Some "edited") (set_result sampleResult setup))))
  = snd (fst (@convertToTxt samplePlatform (set_result sampleResult setup)))
  /\ snd (fst (downloadJSON
                 (set_result sampleResult (set_editorView (Some "edited") setup))))
     = snd (fst (downloadJSON (set_editorView (Some "edited") setup))).
Proof.
  split.
  - apply (proj1 (@exports_sources samplePlatform
                    (set_editorView (Some "edited") (set_result sampleResult setup))
                    (set_result sampleResult setup))).
    reflexivity.
  - apply (proj2 (@exports_sources samplePlatform
                    (set_result sampleResult (set_editorView (Some "edited") setup))
                    (set_editorView (Some "edited") setup))).
    reflexivity.
Defined.

(** X13. A rejected request leaves both exports as they were. *)
Theorem rejected_response_keeps_exports `{P : Platform} (s : State) :
  let s' := fst (fst (crawlWebsite_resumed Rejected s)) in
  snd (fst (convertToTxt s')) = snd (fst (convertToTxt s))
  /\ snd (convertToTxt s') = snd (convertToTxt s)
  /\ snd (fst (downloadJSON s')) = snd (fst (downloadJSON s)).
Proof.
  intros s'. unfold s'. rewrite crawlWebsite_resumed_cases. cbn [fst].
  split; [| split].
  - now apply convertToTxt_result_only.
  - now apply convertToTxt_result_only.
  - now apply downloadJSON_editor_only.
Qed.







Lemma reachable_editor_mounted `{P : Platform} (x : Session) :
  reachable x -> exists doc, editorView (state x) = Some doc.
Proof.
  induction 1 as [| x ev x' e R [doc IH] F]; [now exists "" |].
  fire_inversion F; cbn [state]; try discriminate IH; eauto.
  - unfold updateMaxPages.
    destruct (isNaN (parseInt (displayMaxPages (set_displayMaxPages v (state x)))));
      cbn; eauto.
  - cbn. eauto.
Qed.

(** X16. In every state the session can reach the editor is mounted, so an
    enabled Download JSON button always downloads the editor's document,
    and leaves the session as it is. *)
Theorem json_export_in_session `{P : Platform} (x : Session) :
  reachable x ->
  downloadDisabled (state x) = false ->
  exists doc,
    editorView (state x) = Some doc
    /\ fire ClickDownloadJSON x = Some (x, jsonDownloadTrace doc).
Proof.
  intros R D. destruct (reachable_editor_mounted x R) as [doc E].
  exists doc. split; [exact E |].
  unfold fire. rewrite D, downloadJSON_cases, E. unfold handled.
  now destruct x.
Qed.

Lemma json_export_in_session_witness :
  exists doc,
    editorView (set_loading false
                  (set_editorView (Some "{}")
                     (set_result sampleResult (state sampleLoading)))) = Some doc
    /\ @fire samplePlatform ClickDownloadJSON
         {| state := set_loading false
                       (set_editorView (Some "{}")
                          (set_result sampleResult (state sampleLoading)));
            inFlight := 0 |}
       = Some ({| state := set_loading false
                             (set_editorView (Some "{}")
                                (set_result sampleResult (state sampleLoading)));
                  inFlight := 0 |}, jsonDownloadTrace doc).
Proof.
  apply (@json_export_in_session samplePlatform
           {| state := set_loading false
                         (set_editorView (Some "{}")
                            (set_result sampleResult (state sampleLoading)));
              inFlight := 0 |}); [| reflexivity].
  apply (@reachable_fire samplePlatform sampleLoading
           (Settle (Fulfilled sampleResult)) _ []); [| reflexivity].
  apply (@reachable_fire samplePlatform
           {| state := set_url "example.com" (state initial); inFlight := 0 |}
           (ClickCrawl 10000) sampleLoading
           [ConsoleLog;
            AxiosPost (@crawlRequest samplePlatform
                         (set_url "example.com" (state initial)))]);
    [| reflexivity].
  apply (@reachable_fire samplePlatform initial (InputUrl "example.com") _ []);
    [apply reachable_initial | reflexivity].
Defined.

(** ** The address of the request, with the build-time variable set *)

Lemma prefix_app (p a b : string) :
  prefix p a = true -> prefix p (a ++ b) = true.
Proof.
  revert a. induction p as [|c p IH]; intros a H;
    [simpl; now destruct (a ++ b) |].
  destruct a as [|c' a]; [discriminate H |]. simpl in H |- *.
  destruct (ascii_dec c c'); [now apply IH | discriminate H].
Qed.

Lemma schemeRest_app (a b : string) :
  Axios.schemeRest a = true -> Axios.schemeRest (a ++ b) = true.
Proof.
  induction a as [|c a IH]; intros H; [discriminate H |]. simpl in H |- *.
  destruct (Ascii.eqb c ":"); [now apply prefix_app |].
  apply andb_prop in H as [H1 H2]. rewrite H1, (IH H2). reflexivity.
Qed.

Lemma isAbsoluteURL_app (a b : string) :
  Axios.isAbsoluteURL a = true -> Axios.isAbsoluteURL (a ++ b) = true.
Proof.
  unfold Axios.isAbsoluteURL. intros H.
  apply orb_true_iff in H as [H | H]; apply orb_true_iff.
  - left. now apply prefix_app.
  - right. destruct a as [|c a]; [discriminate H |]. simpl.
    apply andb_prop in H as [H1 H2].
    rewrite H1, (schemeRest_app a b H2). reflexivity.
Qed.

(** X17. With the build-time variable set to an absolute address, the request
    goes to that address followed by [/crawl]; the base address from
    main.ts plays no part.  With the variable set to the empty string, the
    request goes to the default host at [/crawl]. *)
Theorem configured_api_url_address `{P : Platform} (s : State) (v : string) :
  VITE_API_URL = Some v ->
  (Axios.isAbsoluteURL v = true -> requestAddress (crawlRequest s) = v ++ "/crawl")
  /\ (v = "" -> requestAddress (crawlRequest s) = "https://api.websitetotext.com/crawl").
Proof.
  intros H.
  assert (E : endpoint (crawlRequest s) = v ++ "/crawl")
    by (unfold crawlRequest; cbn [endpoint]; now rewrite H).
  unfold requestAddress. rewrite E. split.
  - intros A. unfold Axios.buildFullPath.
    rewrite (isAbsoluteURL_app v "/crawl" A). now rewrite andb_false_r.
  - intros ->. unfold apiUrl. rewrite H. reflexivity.
Qed.

Lemma configured_api_url_address_witness :
  @requestAddress configuredPlatform (@crawlRequest configuredPlatform setup)
  = "https://crawl.example.org/api/crawl".
Proof.
  apply (proj1 (@configured_api_url_address configuredPlatform setup
                  "https://crawl.example.org/api" eq_refl)).
  reflexivity.
Defined.

(** ** The text export: which parts of a page it reads *)

(** X18. The export reads a page's content through the keys h1, h2, h3, h4 and
    text only: two pages whose contents are objects with the same values
    under these five keys contribute the same strings, whatever other keys
    they carry and in whatever order the keys come. *)
Theorem content_read_through_five_keys (page1 page2 : json)
    (c1 c2 : list (string * json)) :
  field "content" page1 = Some (JObj c1) ->
  field "content" page2 = Some (JObj c2) ->
  (forall p, In p [h1; h2; h3; h4; text] ->
             lookup (nameOf p) c1 = lookup (nameOf p) c2) ->
  pageContribution page1 = pageContribution page2.
Proof.
  intros F1 F2 H.
  rewrite (pageContribution_flattenedPage page1), (pageContribution_flattenedPage page2)
    by (unfold nullContent; rewrite ?F1, ?F2; reflexivity).
  unfold flattenedPage. rewrite F1, F2. cbn [isObject].
  unfold arrayField, field.
  pose proof (H h1 ltac:(simpl; tauto)) as K1.
  pose proof (H h2 ltac:(simpl; tauto)) as K2.
  pose proof (H h3 ltac:(simpl; tauto)) as K3.
  pose proof (H h4 ltac:(simpl; tauto)) as K4.
  pose proof (H text ltac:(simpl; tauto)) as K5.
  cbn [nameOf] in K1, K2, K3, K4, K5.
  now rewrite K1, K2, K3, K4, K5.
Qed.

Lemma content_read_through_five_keys_witness :
  pageContribution
    (JObj [("url", JStr "https://example.com");
           ("content", JObj [("text", JArr [JStr "b"]); ("title", JStr "t");
                             ("h1", JArr [JStr "A"])])])
  = pageContribution
      (JObj [("content", JObj [("h1", JArr [JStr "A"]); ("text", JArr [JStr "b"])])]).
Proof.
  apply (content_read_through_five_keys _ _
           [("text", JArr [JStr "b"]); ("title", JStr "t"); ("h1", JArr [JStr "A"])]
           [("h1", JArr [JStr "A"]); ("text", JArr [JStr "b"])]);
    [reflexivity | reflexivity |].
  intros p [<- | [<- | [<- | [<- | [<- | []]]]]]; reflexivity.
Defined.

Lemma flatMap_pages_skipped (pageList : list json) :
  forallb skippedPage pageList = true ->
  flatMap pageContribution pageList = Normal [].
Proof.
  induction pageList as [|page rest IH]; intros H; [reflexivity |].
  simpl in H. apply andb_prop in H as [Hp Hr]. simpl.
  rewrite (non_object_content_skipped page), (IH Hr); [reflexivity |].
  unfold skippedPage in Hp. apply negb_true_iff in Hp.
  intros E. rewrite E in Hp. discriminate Hp.
Qed.

(** X19. When every page of the stored result is one the guard turns away (its
    content is missing, or a string, a number or a boolean; the page itself
    may be anything but an object with such a content), and also when there
    is no page at all, the export raises no alert: it downloads an empty
    file. *)
Theorem skipped_pages_give_empty_file `{P : Platform} (s : State)
    (pageList : list json) :
  field "pages" (result s) = Some (JArr pageList) ->
  forallb skippedPage pageList = true ->
  convertToTxt s = (s, downloadTrace "", Normal tt).
Proof.
  intros Hpages Hskip.
  destruct (pages_read s pageList Hpages) as [T G].
  unfold convertToTxt. run_handler. cbn beta iota.
  rewrite T, G. cbn. rewrite (flatMap_pages_skipped pageList Hskip).
  reflexivity.
Qed.

Lemma skipped_pages_give_empty_file_witness :
  @convertToTxt samplePlatform
    (set_result (JObj [("pages", JArr [JObj [("content", JStr "text")];
                                       JObj [("title", JStr "t")];
                                       JNum (ofZ 7)])]) setup)
  = (set_result (JObj [("pages", JArr [JObj [("content", JStr "text")];
                                       JObj [("title", JStr "t")];
                                       JNum (ofZ 7)])]) setup,
     downloadTrace "", Normal tt).
Proof.
  apply (@skipped_pages_give_empty_file samplePlatform
           (set_result (JObj [("pages", JArr [JObj [("content", JStr "text")];
                                              JObj [("title", JStr "t")];
                                              JNum (ofZ 7)])]) setup)
           [JObj [("content", JStr "text")]; JObj [("title", JStr "t")];
            JNum (ofZ 7)]); reflexivity.
Defined.
